(** * Verde Valley Stays concierge: a shallow embedding and its properties

    The development follows the layout of the Python sources:

    - [Py]       the Python built-ins the sources rely on ([str.strip],
                 [str.join], slicing, exceptions);
    - [json]     [json.dumps], and the reading back of what it writes;
    - [config]   [src/config.py];
    - [context]  [src/services/context.py] (rolling context window);
    - [cal]      [src/services/calendar.py];
    - [rag]      [src/services/rag.py];
    - [tools]    [src/agent/tools.py] (the tool dispatcher);
    - [runner]   [src/agent/runner.py] (the agent loop);
    - [ingest]   [src/ingestion/ingest.py] (chunking).

    A Python [str] is modelled by a [string] whose characters stand for the
    code points below 256; the values a tool call carries (whatever JSON
    can hold: the model's output is not validated) are modelled by
    [Py.value]; a [dict] used as a map is a [gmap]; a [dict] that is
    serialised (so that insertion order is observable) is an association
    list.  Effects are modelled by a state-and-exception monad:
    a computation receives a state, and comes back with either a value or a
    raised exception together with the new state. *)

From Stdlib Require Import ZArith Ascii String Lia.
From stdpp Require Import base gmap strings list sorting pretty.

#[local] Arguments String.append !_ _ / : simpl nomatch.
#[local] Set Warnings "-register-all".

(* ===================================================================== *)
(** * Python built-ins *)
(* ===================================================================== *)

Module Py.

(** [len(s)] *)
Definition len (s : string) : Z := Z.of_nat (String.length s).

(** Characters [str.isspace] accepts, among the code points below 256:
    TAB..CR, FS..US, SPACE, NEL and NBSP. *)
Definition isspace (c : ascii) : bool :=
  let n := N_of_ascii c in
  ((9 <=? n)%N && (n <=? 13)%N) || ((28 <=? n)%N && (n <=? 32)%N)
  || (n =? 133)%N || (n =? 160)%N.

(** [s.lstrip()] *)
Fixpoint lstrip (s : string) : string :=
  match s with
  | EmptyString => EmptyString
  | String c s' => if isspace c then lstrip s' else s
  end.

(** [s.rstrip()] *)
Fixpoint rstrip (s : string) : string :=
  match s with
  | EmptyString => EmptyString
  | String c s' =>
      match rstrip s' with
      | EmptyString => if isspace c then EmptyString else String c EmptyString
      | r => String c r
      end
  end.

(** [s.strip()] *)
Definition strip (s : string) : string := lstrip (rstrip s).

(** [sep.join(parts)] *)
Fixpoint join (sep : string) (parts : list string) : string :=
  match parts with
  | [] => EmptyString
  | [x] => x
  | x :: rest => x +:+ sep +:+ join sep rest
  end.

(** Truthiness of a [str]: [if s:] *)
Definition truthy (s : string) : bool :=
  match s with EmptyString => false | _ => true end.

(** Clamping of one slice bound, as [slice.indices] does for step 1. *)
Definition clamp (i n : Z) : Z :=
  if (i <? 0)%Z then (if (i + n <? 0)%Z then 0%Z else (i + n)%Z)
  else if (n <? i)%Z then n else i.

(** [s[start:stop]] for integer bounds of either sign. *)
Definition slice (s : string) (start stop : Z) : string :=
  let n := len s in
  let lo := clamp start n in
  let hi := clamp stop n in
  if (lo <? hi)%Z then String.substring (Z.to_nat lo) (Z.to_nat (hi - lo)) s
  else EmptyString.

(** [c in s]: [c] occurs in [s] as a run of consecutive characters. *)
Definition is_substring (c s : string) : Prop :=
  exists pre post : string, s = pre +:+ c +:+ post.

(** Exceptions (the subclasses of [Exception]).  [KeyError] carries the
    missing key; every other exception ([TypeError], [ValueError], the
    errors of the services, ...) is represented by the text [str(e)]
    gives. *)
Inductive exn :=
| KeyError (key : string)
| Error (description : string).

(** [c in s], for one character. *)
Fixpoint has_char (c : ascii) (s : string) : bool :=
  match s with
  | EmptyString => false
  | String x s' => Ascii.eqb x c || has_char c s'
  end.

(** [str.isprintable] for one code point below 256: the ASCII characters
    from SPACE to TILDE, and the Latin-1 characters from INVERTED
    EXCLAMATION MARK on but for SOFT HYPHEN. *)
Definition isprintable (c : ascii) : bool :=
  let n := N_of_ascii c in
  ((32 <=? n)%N && (n <=? 126)%N) || ((161 <=? n)%N && negb (n =? 173)%N).

Definition hexdigit (n : N) : ascii :=
  if (n <? 10)%N then ascii_of_N (48 + n) else ascii_of_N (87 + n).

(** What [repr] writes for one character of a [str] quoted by [quote]. *)
Definition repr_char (quote c : ascii) : string :=
  let n := N_of_ascii c in
  let escaped (x : ascii) := String "092"%char (String x "") in
  if Ascii.eqb c quote || (n =? 92)%N then escaped c
  else if (n =? 9)%N then escaped "t"%char
  else if (n =? 10)%N then escaped "n"%char
  else if (n =? 13)%N then escaped "r"%char
  else if isprintable c then String c ""
  else String "092"%char
         (String "x"%char
            (String (hexdigit (n / 16)) (String (hexdigit (n mod 16)) ""))).

Fixpoint repr_chars (quote : ascii) (s : string) : string :=
  match s with
  | EmptyString => EmptyString
  | String c s' => repr_char quote c +:+ repr_chars quote s'
  end.

(** [repr(s)] for a [str]: single quotes, unless the string holds a
    single quote and no double quote. *)
Definition repr (s : string) : string :=
  let quote :=
    if has_char "'" s && negb (has_char "034" s) then "034"%char else "'"%char in
  String quote (repr_chars quote s +:+ String quote "").

(** [str(e)] *)
Definition str_exn (e : exn) : string :=
  match e with
  | KeyError k => repr k
  | Error d => d
  end.

(** Python values: what the arguments of a tool call can hold (anything
    [json.loads] gives) and what a serialised [dict] of the sources holds.
    A [float] is kept as the text [repr] writes for it. *)
Inductive value :=
| PNone
| PBool (b : bool)
| PInt (n : Z)
| PFloat (shown : string)
| PStr (s : string)
| PList (items : list value)
| PDict (items : list (string * value)).

(** A [dict] whose insertion order is observable. *)
Definition dict := list (string * value).

(** [type(v).__name__] *)
Definition type_name (v : value) : string :=
  match v with
  | PNone => "NoneType"
  | PBool _ => "bool"
  | PInt _ => "int"
  | PFloat _ => "float"
  | PStr _ => "str"
  | PList _ => "list"
  | PDict _ => "dict"
  end.

(** Whether [hash(v)] returns: a [list] and a [dict] cannot be hashed. *)
Definition hashable (v : value) : bool :=
  match v with
  | PList _ | PDict _ => false
  | _ => true
  end.

(** [repr(v)] *)
Fixpoint repr_value (v : value) : string :=
  match v with
  | PNone => "None"
  | PBool true => "True"
  | PBool false => "False"
  | PInt n => pretty n
  | PFloat shown => shown
  | PStr s => repr s
  | PList items => "[" +:+ join ", " (List.map repr_value items) +:+ "]"
  | PDict items =>
      "{" +:+ join ", " (List.map (fun '(k, x) => repr k +:+ ": " +:+ repr_value x) items)
      +:+ "}"
  end.

(** [str(v)], which is what an f-string writes for [{v}]. *)
Definition str_of (v : value) : string :=
  match v with
  | PStr s => s
  | _ => repr_value v
  end.

(** Truthiness of a value: [if v:] *)
Definition truth (v : value) : bool :=
  match v with
  | PNone => false
  | PBool b => b
  | PInt n => negb (n =? 0)%Z
  | PFloat shown => negb (String.eqb shown "0.0" || String.eqb shown "-0.0")
  | PStr s => truthy s
  | PList items => match items with [] => false | _ => true end
  | PDict items => match items with [] => false | _ => true end
  end.

(** The values [json.loads] below reads back: [None], a [bool] or a [str]. *)
Definition scalar (v : value) : bool :=
  match v with
  | PNone | PBool _ | PStr _ => true
  | _ => false
  end.

End Py.

(* ===================================================================== *)
(** * The [json] module of the standard library *)
(* ===================================================================== *)

Module json.
Import Py.

Definition dquote : ascii := "034"%char.
Definition backslash : ascii := "092"%char.

(** One lowercase hexadecimal digit. *)
Definition hex_digit (n : N) : ascii :=
  if (n <? 10)%N then ascii_of_N (48 + n) else ascii_of_N (87 + n).

(** ['\\u{0:04x}'.format(n)] for [n < 256]. *)
Definition u_escape (n : N) : string :=
  String backslash
    (String "u" (String "0" (String "0"
      (String (hex_digit (n / 16)) (String (hex_digit (n mod 16)) ""))))).

(** The replacement [ESCAPE_ASCII] makes for one character: the short
    escapes of [ESCAPE_DCT], the printable ASCII characters unchanged, a
    [\uXXXX] escape for everything else. *)
Definition escape_char (c : ascii) : string :=
  let n := N_of_ascii c in
  if (n =? 34)%N then String backslash (String dquote "")
  else if (n =? 92)%N then String backslash (String backslash "")
  else if (n =? 8)%N then String backslash "b"
  else if (n =? 12)%N then String backslash "f"
  else if (n =? 10)%N then String backslash "n"
  else if (n =? 13)%N then String backslash "r"
  else if (n =? 9)%N then String backslash "t"
  else if ((32 <=? n)%N && (n <=? 126)%N) then String c ""
  else u_escape n.

Fixpoint escape (s : string) : string :=
  match s with
  | EmptyString => EmptyString
  | String c s' => escape_char c +:+ escape s'
  end.

(** [encode_basestring_ascii(s)] *)
Definition encode_str (s : string) : string :=
  String dquote (escape s +:+ String dquote "").

(** [float.__repr__], but for the three values JSON has no text for. *)
Definition floatstr (shown : string) : string :=
  if String.eqb shown "nan" then "NaN"
  else if String.eqb shown "inf" then "Infinity"
  else if String.eqb shown "-inf" then "-Infinity"
  else shown.

(** The text of one value, with the default separators. *)
Fixpoint encode_value (v : value) : string :=
  match v with
  | PNone => "null"
  | PBool true => "true"
  | PBool false => "false"
  | PInt n => pretty n
  | PFloat shown => floatstr shown
  | PStr s => encode_str s
  | PList items => "[" +:+ join ", " (List.map encode_value items) +:+ "]"
  | PDict items =>
      "{" +:+ join ", "
                (List.map (fun '(k, x) => encode_str k +:+ ": " +:+ encode_value x) items)
      +:+ "}"
  end.

Definition encode_item (kv : string * value) : string :=
  encode_str kv.1 +:+ ": " +:+ encode_value kv.2.

(** [json.dumps(d)] with the default separators and [ensure_ascii]. *)
Definition dumps (d : dict) : string :=
  "{" +:+ join ", " (encode_item <$> d) +:+ "}".

(** ** Decoding

    [loads] reads back the JSON texts [dumps] can produce: one object
    whose values are strings, booleans or null. *)

Definition hex_value (c : ascii) : option N :=
  let n := N_of_ascii c in
  if ((48 <=? n)%N && (n <=? 57)%N) then Some (n - 48)%N
  else if ((97 <=? n)%N && (n <=? 102)%N) then Some (n - 87)%N
  else if ((65 <=? n)%N && (n <=? 70)%N) then Some (n - 55)%N
  else None.

Definition hex4 (a b c d : ascii) : option N :=
  match hex_value a, hex_value b, hex_value c, hex_value d with
  | Some x, Some y, Some z, Some w => Some (((x * 16 + y) * 16 + z) * 16 + w)%N
  | _, _, _, _ => None
  end.

(** The table [BACKSLASH] of the decoder. *)
Definition unescape (e : ascii) : option ascii :=
  let n := N_of_ascii e in
  if (n =? 34)%N then Some dquote
  else if (n =? 92)%N then Some backslash
  else if (n =? 47)%N then Some "/"%char
  else if (n =? 98)%N then Some "008"%char
  else if (n =? 102)%N then Some "012"%char
  else if (n =? 110)%N then Some "010"%char
  else if (n =? 114)%N then Some "013"%char
  else if (n =? 116)%N then Some "009"%char
  else None.

(** [scanstring], strict: the input starts just after the opening quote;
    the result is the decoded string and what follows the closing quote.
    A [\uXXXX] escape of a code point above 255 is outside the model. *)
Fixpoint scanstring (s : string) : option (string * string) :=
  match s with
  | EmptyString => None
  | String c rest =>
      if (N_of_ascii c =? 34)%N then Some (EmptyString, rest)
      else if (N_of_ascii c =? 92)%N then
        match rest with
        | EmptyString => None
        | String e rest1 =>
            if (N_of_ascii e =? 117)%N then
              match rest1 with
              | String h1 (String h2 (String h3 (String h4 rest2))) =>
                  match hex4 h1 h2 h3 h4 with
                  | Some n =>
                      if (n <? 256)%N then
                        match scanstring rest2 with
                        | Some (t, r) => Some (String (ascii_of_N n) t, r)
                        | None => None
                        end
                      else None
                  | None => None
                  end
              | _ => None
              end
            else
              match unescape e with
              | Some c' =>
                  match scanstring rest1 with
                  | Some (t, r) => Some (String c' t, r)
                  | None => None
                  end
              | None => None
              end
        end
      else if (N_of_ascii c <? 32)%N then None
      else
        match scanstring rest with
        | Some (t, r) => Some (String c t, r)
        | None => None
        end
  end.

(** JSON whitespace: space, TAB, LF, CR. *)
Definition is_ws (c : ascii) : bool :=
  let n := N_of_ascii c in
  (n =? 32)%N || (n =? 9)%N || (n =? 10)%N || (n =? 13)%N.

Fixpoint skip_ws (s : string) : string :=
  match s with
  | EmptyString => EmptyString
  | String c s' => if is_ws c then skip_ws s' else s
  end.

(** A value: a string, [true], [false] or [null]. *)
Definition scan_atom (s : string) : option (value * string) :=
  match s with
  | String c rest =>
      if (N_of_ascii c =? 34)%N then
        match scanstring rest with
        | Some (t, r) => Some (PStr t, r)
        | None => None
        end
      else
        match s with
        | String "t" (String "r" (String "u" (String "e" r))) => Some (PBool true, r)
        | String "f" (String "a" (String "l" (String "s" (String "e" r)))) =>
            Some (PBool false, r)
        | String "n" (String "u" (String "l" (String "l" r))) => Some (PNone, r)
        | _ => None
        end
  | EmptyString => None
  end.

(** [d[k] = v]: a key already present keeps its position. *)
Fixpoint setitem (d : dict) (k : string) (v : value) : dict :=
  match d with
  | [] => [(k, v)]
  | (k', v') :: d' =>
      if String.eqb k' k then (k', v) :: d' else (k', v') :: setitem d' k v
  end.

(** The members of an object, from the opening quote of a key on; one
    unit of fuel per member. *)
Fixpoint scan_members (fuel : nat) (acc : dict) (s : string)
  : option (dict * string) :=
  match fuel with
  | O => None
  | S fuel' =>
      match s with
      | String c rest =>
          if (N_of_ascii c =? 34)%N then
            match scanstring rest with
            | Some (k, r1) =>
                match skip_ws r1 with
                | String ":" r2 =>
                    match scan_atom (skip_ws r2) with
                    | Some (v, r3) =>
                        let acc' := setitem acc k v in
                        match skip_ws r3 with
                        | String "}" r4 => Some (acc', r4)
                        | String "," r4 => scan_members fuel' acc' (skip_ws r4)
                        | _ => None
                        end
                    | None => None
                    end
                | _ => None
                end
            | None => None
            end
          else None
      | EmptyString => None
      end
  end.

(** [json.loads(text)] for a text holding one such object. *)
Definition loads (text : string) : option dict :=
  match skip_ws text with
  | String "{" r =>
      match skip_ws r with
      | String "}" r' =>
          match skip_ws r' with EmptyString => Some [] | _ => None end
      | body =>
          match scan_members (String.length text) [] body with
          | Some (d, r') =>
              match skip_ws r' with EmptyString => Some d | _ => None end
          | None => None
          end
      end
  | _ => None
  end.

End json.

(* ===================================================================== *)
(** * Computations: state and exceptions *)
(* ===================================================================== *)

(** What a call comes back with: a value, or a raised exception. *)
Inductive outcome (A : Type) :=
| Ok (a : A)
| Raise (e : Py.exn).
Arguments Ok {A} a.
Arguments Raise {A} e.

(** A computation over a state of type [S]. *)
Definition M (S A : Type) : Type := S -> outcome A * S.

Definition ret {S A} (a : A) : M S A := fun s => (Ok a, s).

Definition raise {S A} (e : Py.exn) : M S A := fun s => (Raise e, s).

Definition bind {S A B} (c : M S A) (k : A -> M S B) : M S B :=
  fun s =>
    match c s with
    | (Ok a, s') => k a s'
    | (Raise e, s') => (Raise e, s')
    end.

(** A step that does not touch the state. *)
Definition lift {S A} (o : outcome A) : M S A := fun s => (o, s).

(** [try: c  except Exception as e: h e] *)
Definition try_except {S A} (c : M S A) (h : Py.exn -> M S A) : M S A :=
  fun s =>
    match c s with
    | (Ok a, s') => (Ok a, s')
    | (Raise e, s') => h e s'
    end.

Declare Scope eff_scope.
Delimit Scope eff_scope with eff.
Notation "x <- c ;; k" := (bind c (fun x => k))
  (at level 100, c at next level, right associativity) : eff_scope.
Notation "c ;;; k" := (bind c (fun _ => k))
  (at level 100, right associativity) : eff_scope.
Open Scope eff_scope.

(** A state that keeps, next to the outside world, the list of the calls
    made so far (oldest first). *)
Record logged (X E : Type) := Logged { outside : X; calls : list E }.
Arguments Logged {X E} outside calls.
Arguments outside {X E} l.
Arguments calls {X E} l.

(** Record one event. *)
Definition emit {X E} (e : E) : M (logged X E) unit :=
  fun s => (Ok tt, Logged (outside s) (calls s ++ [e])).

(** Perform a call of the outside world, recording it first. *)
Definition perform {X E A} (e : E) (f : X -> outcome A * X) : M (logged X E) A :=
  fun s =>
    let '(r, x') := f (outside s) in
    (r, Logged x' (calls s ++ [e])).

(** Unfolding of the monadic operations. *)
Ltac eff :=
  cbv beta iota delta [bind ret raise lift emit perform try_except];
  cbn [outside calls].

(* ===================================================================== *)
(** * [src/config.py] *)
(* ===================================================================== *)

Module config.

Definition CLAUDE_MODEL : string := "claude-sonnet-4-20250514".
Definition EMBEDDING_MODEL : string := "text-embedding-3-small".

Definition CONTEXT_MESSAGE_LIMIT : nat := 10.

Definition CALENDAR_ITEMS : list (string * string) :=
  [ ("The Glasshouse",
     "d3e9120b63d2b7995beab066baca2774799e455fc6dea0449b9c691272695d45@group.calendar.google.com");
    ("The River Cottage",
     "4772fc4ce0e1eb2299339b0d2f6795acb2cc6b131c2c3ade92dde98eac5c29c2@group.calendar.google.com");
    ("The Olive Lodge",
     "60932cd3efb70be070b1739b4907f44a633a5f4b35ebb0582fbfcc5d13a5fb6d@group.calendar.google.com");
    ("The Barn Loft",
     "62a9c034c27d264733e4e91f8798d15b400fbd8edbd031109ff47ad1b87ce39c@group.calendar.google.com");
    ("The Potter's Cabin",
     "8e8072d46292d0a7c0eb4e137d27f2ddd672d44b800eef410e59c985ffc85098@group.calendar.google.com");
    ("The Stargazer's Pod",
     "6a0a5f989f29ab88ff5d3e9e2010dd32505fe871a467760b73b25fbfe84b4eb5@group.calendar.google.com") ].

Definition CALENDAR_MAP : gmap string string := list_to_map CALENDAR_ITEMS.

Definition PROPERTY_NAMES : list string := CALENDAR_ITEMS.*1.

End config.

(* ===================================================================== *)
(** * [src/services/context.py] *)
(* ===================================================================== *)

Module context.
Import Py.

(** A row of the table [minimal_context].  The timestamp is the reading
    of the clock ([datetime.now]) at the insertion, as a number. *)
Record row := {
  user_id : Z;
  chat_id : Z;
  role : string;
  text : string;
  message_id : option Z;
  update_id : option Z;
  timestamp : Z
}.

(** What [select("role, text, timestamp")] keeps of a row. *)
Record entry := {
  entry_role : string;
  entry_text : string;
  entry_timestamp : Z
}.

Definition project (r : row) : entry :=
  {| entry_role := role r; entry_text := text r; entry_timestamp := timestamp r |}.

(** The table, in insertion order. *)
Abbreviation table := (list row).

(** [db.table("minimal_context").insert({...})], at clock reading [now]. *)
Definition save_to_context (now : Z) (user_id chat_id : Z) (role text : string)
  (message_id update_id : option Z) (t : table) : table :=
  t ++ [ {| user_id := user_id; chat_id := chat_id; role := role; text := text;
            message_id := message_id; update_id := update_id; timestamp := now |} ].

(** [.eq("user_id", user_id)] *)
Definition of_user (u : Z) (t : table) : list row :=
  filter (fun r => user_id r = u) t.

(** [.order("timestamp", desc=False)] *)
Fixpoint insert_by_timestamp (r : row) (l : list row) : list row :=
  match l with
  | [] => [r]
  | x :: l' =>
      if (timestamp r <? timestamp x)%Z then r :: l
      else x :: insert_by_timestamp r l'
  end.

Definition order_by_timestamp (l : list row) : list row :=
  foldr insert_by_timestamp [] l.

Definition load_context (user_id : Z) (t : table) : list entry :=
  project <$> order_by_timestamp (of_user user_id t).

(** Modelled from the spec: the stored procedure [trim_minimal_context]
    that [trim_context] calls is kept in the datastore and not in the
    sources.  By the specification it trims the window of one user to its
    last [limit] entries, deleting the oldest ones beyond the limit and
    nothing else. *)
Definition trim_minimal_context (limit : nat) (p_user_id : Z) (t : table) : table :=
  let mine := order_by_timestamp (of_user p_user_id t) in
  let oldest := take (length mine - limit) mine in
  filter (fun r => ¬ (user_id r = p_user_id ∧ timestamp r ∈ timestamp <$> oldest)) t.

(** [db.rpc("trim_minimal_context", {"p_user_id": user_id})] *)
Definition trim_context (limit : nat) (user_id : Z) (t : table) : table :=
  trim_minimal_context limit user_id t.

Definition newline : string := String "010"%char "".

(** [f"{m['role']}: {m['text']}"] *)
Definition line (m : entry) : string :=
  entry_role m +:+ ": " +:+ entry_text m.

Definition format_context_for_prompt (messages : list entry) : string :=
  match messages with
  | [] => "(No previous conversation)"
  | _ => join newline (line <$> messages)
  end.

(** The operations on the window, as the handler issues them. *)
Inductive op :=
| Append (now : Z) (user_id chat_id : Z) (role text : string)
         (message_id update_id : option Z)
| Trim (user_id : Z).

Definition step (limit : nat) (t : table) (o : op) : table :=
  match o with
  | Append now u c r x m d => save_to_context now u c r x m d t
  | Trim u => trim_context limit u t
  end.

Definition run (limit : nat) (ops : list op) (t : table) : table :=
  foldl (step limit) t ops.

(** The row an operation inserts. *)
Definition row_of (o : op) : option row :=
  match o with
  | Append now u c r x m d =>
      Some {| user_id := u; chat_id := c; role := r; text := x;
              message_id := m; update_id := d; timestamp := now |}
  | Trim _ => None
  end.

(** The rows appended for a user, in the order of the appends. *)
Definition appended (u : Z) (ops : list op) : list row :=
  of_user u (omap row_of ops).

(** The full append history of a user, as [load_context] would show it. *)
Definition history (u : Z) (ops : list op) : list entry :=
  project <$> appended u ops.

(** Rows whose timestamps strictly increase. *)
Definition increasing (l : list row) : Prop :=
  StronglySorted Z.lt (timestamp <$> l).

(** How many entries were appended for a user since the last trim of that
    user's window (since the beginning when there was none). *)
Definition untrimmed (u : Z) (ops : list op) : nat :=
  foldl (fun k o =>
           match o with
           | Append _ u' _ _ _ _ _ => if decide (u' = u) then S k else k
           | Trim u' => if decide (u' = u) then 0 else k
           end) 0 ops.

End context.

(* ===================================================================== *)
(** * The outside services of [calendar.py] and [rag.py] *)
(* ===================================================================== *)

(** An event of a calendar, as far as the sources read it: its ["id"]. *)
Record gevent := { event_id : option string }.

(** The body [create_booking] inserts: the two dates are handed on as
    they came. *)
Record gevent_body := {
  summary : string;
  description : string;
  start_date : Py.value;
  end_date : Py.value
}.

(** Calls to the outside, as recorded. *)
Inductive call :=
| CGetService
| CEventsList (calendarId timeMin timeMax : string) (q : option Py.value) (maxResults : Z)
| CEventsInsert (calendarId : string) (body : gevent_body)
| CEventsDelete (calendarId eventId : string)
| CEmbeddingsCreate (model : string) (input : Py.value)
| CMatchDocuments (match_count : Z).

(** The collaborators, over a world [X]: the Google Calendar client, the
    OpenAI client, the Supabase client, and the date arithmetic of
    [datetime].  Each call may raise. *)
Record Services (X : Type) := {
  embedding : Type;
  get_service : X -> outcome () * X;
  events_list : string -> string -> string -> option Py.value -> Z ->
                X -> outcome (list gevent) * X;
  events_insert : string -> gevent_body -> X -> outcome (option string) * X;
  events_delete : string -> string -> X -> outcome () * X;
  embeddings_create : string -> Py.value -> X -> outcome (list embedding) * X;
  rpc_match_documents : embedding -> Z -> X -> outcome (list (option string)) * X;
  (** [(strptime(d, "%Y-%m-%d") + timedelta(days=1)).strftime("%Y-%m-%d")] *)
  next_day : string -> outcome string
}.
Arguments embedding {X} _.
Arguments get_service {X} _.
Arguments events_list {X} _.
Arguments events_insert {X} _.
Arguments events_delete {X} _.
Arguments embeddings_create {X} _.
Arguments rpc_match_documents {X} _.
Arguments next_day {X} _.

(* ===================================================================== *)
(** * [src/services/calendar.py] *)
(* ===================================================================== *)

Module cal.
Import Py.

Section WithServices.
Context {X : Type} (svc : Services X).

#[local] Abbreviation St := (logged X call).

Definition _get_service : M St () :=
  perform CGetService (get_service svc).

(** [CALENDAR_MAP.get(property_name)].  The key is hashed first: a [list]
    or a [dict] raises [TypeError].  A value that is not a [str] equals
    none of the keys. *)
Definition _resolve_calendar (property_name : value) : outcome (option string) :=
  match property_name with
  | PStr name => Ok (config.CALENDAR_MAP !! name)
  | PList _ | PDict _ =>
      Raise (Error ("unhashable type: '" +:+ type_name property_name +:+ "'"))
  | _ => Ok None
  end.

(** [not calendar_id]: [None] or the empty string. *)
Definition resolved (calendar_id : option string) : option string :=
  match calendar_id with
  | Some c => if truthy c then Some c else None
  | None => None
  end.

Definition check_availability (property_name check_in_date check_out_date : value)
  : M St dict :=
  calendar_id <- lift (_resolve_calendar property_name) ;;
  match resolved calendar_id with
  | None =>
      ret [ ("available", PBool false);
            ("message", PStr ("Unknown property: " +:+ str_of property_name +:+
                              ". Please choose from the available properties.")) ]
  | Some calendar_id =>
      try_except
        (_get_service ;;;
         events <- perform
                     (CEventsList (strip calendar_id)
                        (str_of check_in_date +:+ "T00:00:00Z")
                        (str_of check_out_date +:+ "T23:59:59Z") None 5)
                     (events_list svc (strip calendar_id)
                        (str_of check_in_date +:+ "T00:00:00Z")
                        (str_of check_out_date +:+ "T23:59:59Z") None 5) ;;
         match events with
         | [] =>
             ret [ ("available", PBool true);
                   ("property", property_name);
                   ("check_in", check_in_date);
                   ("check_out", check_out_date);
                   ("message", PStr ("Yes! " +:+ str_of property_name +:+
                                     " is available from " +:+ str_of check_in_date +:+
                                     " to " +:+ str_of check_out_date +:+ ".")) ]
         | _ :: _ =>
             ret [ ("available", PBool false);
                   ("property", property_name);
                   ("check_in", check_in_date);
                   ("check_out", check_out_date);
                   ("message", PStr ("Sorry, " +:+ str_of property_name +:+
                                     " is already booked from " +:+ str_of check_in_date +:+
                                     " to " +:+ str_of check_out_date +:+ ". " +:+
                                     "Would you like to check other dates or explore our other properties?")) ]
         end)
        (fun _ =>
           ret [ ("available", PBool false);
                 ("message", PStr "Unable to check availability right now. Please try again.") ])
  end.

(** [str(event_id)] inside an f-string. *)
Definition fmt_id (event_id : option string) : string :=
  match event_id with Some i => i | None => "None" end.

Definition atom_of_id (event_id : option string) : value :=
  match event_id with Some i => PStr i | None => PNone end.

Definition nl : string := String "010"%char "".

Definition create_booking
  (property_name check_in_date check_out_date guest_name guest_email guest_phone : value)
  : M St dict :=
  calendar_id <- lift (_resolve_calendar property_name) ;;
  match resolved calendar_id with
  | None =>
      ret [ ("success", PBool false);
            ("message", PStr ("Unknown property: " +:+ str_of property_name +:+ ".")) ]
  | Some calendar_id =>
      try_except
        (_get_service ;;;
         let description_lines :=
           ["Guest: " +:+ str_of guest_name]
           ++ (if truth guest_email then ["Email: " +:+ str_of guest_email] else [])
           ++ (if truth guest_phone then ["Phone: " +:+ str_of guest_phone] else []) in
         let event :=
           {| summary := "Booking: " +:+ str_of guest_name;
              description := join nl description_lines;
              start_date := check_in_date;
              end_date := check_out_date |} in
         event_id <- perform (CEventsInsert (strip calendar_id) event)
                       (events_insert svc (strip calendar_id) event) ;;
         ret [ ("success", PBool true);
               ("booking_id", atom_of_id event_id);
               ("property", property_name);
               ("guest_name", guest_name);
               ("check_in", check_in_date);
               ("check_out", check_out_date);
               ("message", PStr ("Booking confirmed! " +:+ str_of guest_name +:+
                                 " has booked " +:+ str_of property_name +:+ " " +:+
                                 "from " +:+ str_of check_in_date +:+ " to " +:+
                                 str_of check_out_date +:+ ". Confirmation ID: " +:+
                                 fmt_id event_id)) ])
        (fun _ =>
           ret [ ("success", PBool false);
                 ("message", PStr "Unable to create the booking right now. Please try again.") ])
  end.

(** [datetime.strptime(check_in_date, "%Y-%m-%d")] and the day after:
    [strptime] takes a [str] only. *)
Definition day_after (check_in_date : value) : outcome string :=
  match check_in_date with
  | PStr d => next_day svc d
  | _ =>
      Raise (Error ("strptime() argument 1 must be str, not "
                    +:+ type_name check_in_date))
  end.

Definition cancel_booking (property_name guest_name check_in_date : value)
  : M St dict :=
  calendar_id <- lift (_resolve_calendar property_name) ;;
  match resolved calendar_id with
  | None =>
      ret [ ("success", PBool false);
            ("message", PStr ("Unknown property: " +:+ str_of property_name +:+ ".")) ]
  | Some calendar_id =>
      try_except
        (_get_service ;;;
         next <- lift (day_after check_in_date) ;;
         events <- perform
                     (CEventsList (strip calendar_id)
                        (str_of check_in_date +:+ "T00:00:00Z")
                        (next +:+ "T00:00:00Z") (Some guest_name) 10)
                     (events_list svc (strip calendar_id)
                        (str_of check_in_date +:+ "T00:00:00Z")
                        (next +:+ "T00:00:00Z") (Some guest_name) 10) ;;
         match events with
         | [] =>
             ret [ ("success", PBool false);
                   ("property", property_name);
                   ("guest_name", guest_name);
                   ("check_in", check_in_date);
                   ("message", PStr ("Sorry, I couldn't find a booking for " +:+
                                     str_of guest_name +:+ " at " +:+ str_of property_name +:+
                                     " on " +:+ str_of check_in_date +:+ ". " +:+
                                     "Please check the details and try again, or contact us directly for assistance.")) ]
         | first :: _ =>
             eid <- match event_id first with
                    | Some i => ret i
                    | None => raise (KeyError "id")
                    end ;;
             perform (CEventsDelete (strip calendar_id) eid)
               (events_delete svc (strip calendar_id) eid) ;;;
             ret [ ("success", PBool true);
                   ("property", property_name);
                   ("guest_name", guest_name);
                   ("check_in", check_in_date);
                   ("message", PStr ("Booking cancelled successfully! " +:+
                                     str_of guest_name +:+ "'s reservation " +:+
                                     "for " +:+ str_of property_name +:+ " on " +:+
                                     str_of check_in_date +:+ " has been cancelled.")) ]
         end)
        (fun _ =>
           ret [ ("success", PBool false);
                 ("message", PStr "Unable to cancel the booking right now. Please try again.") ])
  end.

End WithServices.
End cal.

(* ===================================================================== *)
(** * [src/services/rag.py] *)
(* ===================================================================== *)

Module rag.
Import Py.

Section WithServices.
Context {X : Type} (svc : Services X).

#[local] Abbreviation St := (logged X call).

Definition separator : string :=
  cal.nl +:+ cal.nl +:+ "---" +:+ cal.nl +:+ cal.nl.

(** The rows whose ["content"] is present and not empty. *)
Definition contents (rows : list (option string)) : list string :=
  omap (fun r => match r with
                 | Some c => if truthy c then Some c else None
                 | None => None
                 end) rows.

Definition search_knowledge_base (query : value) (match_count : Z) : M St string :=
  try_except
    (data <- perform (CEmbeddingsCreate config.EMBEDDING_MODEL query)
               (embeddings_create svc config.EMBEDDING_MODEL query) ;;
     query_vector <- match data with
                     | v :: _ => ret v
                     | [] => raise (Error "list index out of range")
                     end ;;
     rows <- perform (CMatchDocuments match_count)
               (rpc_match_documents svc query_vector match_count) ;;
     match rows with
     | [] => ret "No relevant information found in the knowledge base."
     | _ => ret (join separator (contents rows))
     end)
    (fun _ => ret "Unable to search the knowledge base right now.").

End WithServices.
End rag.

(* ===================================================================== *)
(** * [src/agent/tools.py] *)
(* ===================================================================== *)

(** What a backing capability hands back: a [str] or a [dict]. *)
Inductive result :=
| RStr (s : string)
| RDict (d : Py.dict).

(** The four backing capabilities the dispatcher calls through the modules
    [rag] and [cal], over a world [W].  Each may raise. *)
Record Capabilities (W : Type) := {
  cap_search_knowledge_base : Py.value -> W -> outcome result * W;
  cap_check_availability : Py.value -> Py.value -> Py.value -> W -> outcome result * W;
  cap_create_booking :
    Py.value -> Py.value -> Py.value -> Py.value -> Py.value -> Py.value ->
    W -> outcome result * W;
  cap_cancel_booking : Py.value -> Py.value -> Py.value -> W -> outcome result * W
}.
Arguments cap_search_knowledge_base {W} _.
Arguments cap_check_availability {W} _.
Arguments cap_create_booking {W} _.
Arguments cap_cancel_booking {W} _.

(** The blocks of a model response.  The input of a tool call is the
    JSON object the model wrote: its values are not checked against the
    schema. *)
Inductive block :=
| TextBlock (text : string)
| ToolUseBlock (id name : string) (input : gmap string Py.value)
| OtherBlock.

Record tool_result := {
  tool_use_id : string;
  result_content : string
}.

Inductive content :=
| Text (s : string)
| Blocks (bs : list block)
| ToolResults (rs : list tool_result).

Record message := { role : string; message_content : content }.

Record response := { stop_reason : string; response_content : list block }.

(** What the agent does, as recorded: a model call (with the system prompt
    and the message list it was given), the dispatch of a tool, the call of
    a backing capability (with its arguments in order). *)
Inductive event :=
| EModel (system : string) (messages : list message)
| ETool (name : string) (input : gmap string Py.value)
| ECapability (name : string) (args : list Py.value).

Module tools.
Import Py.

Definition REGISTERED : list string :=
  ["search_knowledge_base"; "check_availability"; "create_booking"; "cancel_booking"].

(** The ["required"] lists of [TOOL_SCHEMAS]. *)
Definition required (tool_name : string) : list string :=
  if String.eqb tool_name "search_knowledge_base" then ["query"]
  else if String.eqb tool_name "check_availability" then
    ["property_name"; "check_in_date"; "check_out_date"]
  else if String.eqb tool_name "create_booking" then
    ["property_name"; "check_in_date"; "check_out_date"; "guest_name"; "guest_email"]
  else if String.eqb tool_name "cancel_booking" then
    ["property_name"; "guest_name"; "check_in_date"]
  else [].

(** The keys the dispatcher reads with [tool_input[key]], in the order in
    which it evaluates them. *)
Definition subscripted (tool_name : string) : list string :=
  if String.eqb tool_name "search_knowledge_base" then ["query"]
  else if String.eqb tool_name "check_availability" then
    ["property_name"; "check_in_date"; "check_out_date"]
  else if String.eqb tool_name "create_booking" then
    ["property_name"; "check_in_date"; "check_out_date"; "guest_name"]
  else if String.eqb tool_name "cancel_booking" then
    ["property_name"; "guest_name"; "check_in_date"]
  else [].

(** The first of [keys] that [tool_input] lacks. *)
Fixpoint first_missing (keys : list string) (tool_input : gmap string value)
  : option string :=
  match keys with
  | [] => None
  | k :: keys' =>
      match tool_input !! k with
      | None => Some k
      | Some _ => first_missing keys' tool_input
      end
  end.

Section WithCapabilities.
Context {W : Type} (caps : Capabilities W).

#[local] Abbreviation St := (logged W event).

(** [tool_input[key]] *)
Definition getitem (tool_input : gmap string value) (key : string) : M St value :=
  match tool_input !! key with
  | Some v => ret v
  | None => raise (KeyError key)
  end.

(** [tool_input.get(key, dflt)] *)
Definition get (tool_input : gmap string value) (key dflt : string) : value :=
  default (PStr dflt) (tool_input !! key).

(** The body of the [try] block. *)
Definition dispatch (tool_name : string) (tool_input : gmap string value)
  : M St result :=
  if String.eqb tool_name "search_knowledge_base" then
    query <- getitem tool_input "query" ;;
    perform (ECapability "search_knowledge_base" [query])
      (cap_search_knowledge_base caps query)
  else if String.eqb tool_name "check_availability" then
    property_name <- getitem tool_input "property_name" ;;
    check_in_date <- getitem tool_input "check_in_date" ;;
    check_out_date <- getitem tool_input "check_out_date" ;;
    perform (ECapability "check_availability"
               [property_name; check_in_date; check_out_date])
      (cap_check_availability caps property_name check_in_date check_out_date)
  else if String.eqb tool_name "create_booking" then
    property_name <- getitem tool_input "property_name" ;;
    check_in_date <- getitem tool_input "check_in_date" ;;
    check_out_date <- getitem tool_input "check_out_date" ;;
    guest_name <- getitem tool_input "guest_name" ;;
    let guest_email := get tool_input "guest_email" "" in
    let guest_phone := get tool_input "guest_phone" "" in
    perform (ECapability "create_booking"
               [property_name; check_in_date; check_out_date;
                guest_name; guest_email; guest_phone])
      (cap_create_booking caps property_name check_in_date check_out_date
         guest_name guest_email guest_phone)
  else if String.eqb tool_name "cancel_booking" then
    property_name <- getitem tool_input "property_name" ;;
    guest_name <- getitem tool_input "guest_name" ;;
    check_in_date <- getitem tool_input "check_in_date" ;;
    perform (ECapability "cancel_booking" [property_name; guest_name; check_in_date])
      (cap_cancel_booking caps property_name guest_name check_in_date)
  else
    ret (RDict [("error", PStr ("Unknown tool: " +:+ tool_name))]).

(** The [except Exception as e] handler. *)
Definition tool_failed (e : exn) : result :=
  RDict [("error", PStr ("Tool failed: " +:+ str_exn e))].

(** [json.dumps(result) if isinstance(result, dict) else str(result)] *)
Definition to_str (r : result) : string :=
  match r with
  | RDict d => json.dumps d
  | RStr s => s
  end.

Definition execute_tool (tool_name : string) (tool_input : gmap string value)
  : M St string :=
  emit (ETool tool_name tool_input) ;;;
  result <- try_except (dispatch tool_name tool_input)
              (fun e => ret (tool_failed e)) ;;
  ret (to_str result).

End WithCapabilities.

(** The capabilities as this repository binds them: [rag] and [cal] over
    the outside services. *)
Definition lift_str {S} (c : M S string) : M S result :=
  x <- c ;; ret (RStr x).
Definition lift_dict {S} (c : M S dict) : M S result :=
  x <- c ;; ret (RDict x).

Definition repository {X} (svc : Services X) : Capabilities (logged X call) := {|
  cap_search_knowledge_base q := lift_str (rag.search_knowledge_base svc q 5);
  cap_check_availability p i o := lift_dict (cal.check_availability svc p i o);
  cap_create_booking p i o g e ph := lift_dict (cal.create_booking svc p i o g e ph);
  cap_cancel_booking p g i := lift_dict (cal.cancel_booking svc p g i)
|}.

End tools.

(* ===================================================================== *)
(** * [src/agent/runner.py] *)
(* ===================================================================== *)

Module runner.
Import Py.

Definition FALLBACK : string :=
  "I'm sorry, I had trouble processing that. Please try again.".

Definition max_iterations : nat := 10.

(** [[b.text for b in content if hasattr(b, "text")]] *)
Definition text_blocks (bs : list block) : list string :=
  omap (fun b => match b with TextBlock t => Some t | _ => None end) bs.

(** The tool calls a response asks for: identifier, name and input. *)
Definition tool_uses (bs : list block) : list (string * string * gmap string value) :=
  omap (fun b => match b with
                 | ToolUseBlock id name input => Some (id, name, input)
                 | _ => None
                 end) bs.

(** The tools dispatched, as recorded. *)
Definition dispatched (evs : list event) : list (string * gmap string value) :=
  omap (fun e => match e with ETool name input => Some (name, input) | _ => None end) evs.

(** The number of model calls recorded. *)
Definition is_model_call (e : event) : bool :=
  match e with EModel _ _ => true | _ => false end.

Definition model_calls (evs : list event) : nat :=
  length (List.filter is_model_call evs).

Section WithModel.
Context {W : Type}.
(** The hosted model: [client.messages.create], given the system prompt
    and the message list (model name, token limit and tool schemas are
    the same at every call). *)
Context (messages_create : string -> list message -> W -> outcome response * W).
Context (caps : Capabilities W).
(** The text of [prompts/system_prompt.txt]. *)
Context (base_prompt : string).

#[local] Abbreviation St := (logged W event).

Definition _load_system_prompt (recent_conversation : string) : string :=
  "Recent Conversation:" +:+ cal.nl +:+ recent_conversation +:+ cal.nl +:+ cal.nl
  +:+ base_prompt.

(** The [for block in response.content] loop. *)
Fixpoint run_tools (bs : list block) : M St (list tool_result) :=
  match bs with
  | [] => ret []
  | ToolUseBlock id name input :: rest =>
      result_content <- tools.execute_tool caps name input ;;
      tool_results <- run_tools rest ;;
      ret ({| tool_use_id := id; result_content := result_content |} :: tool_results)
  | _ :: rest => run_tools rest
  end.

(** [served bs s results s']: starting in state [s], the tool calls of
    [bs] are dispatched one after the other, first to last, each in the
    state its predecessor left; [results] pairs the identifier of each
    call with what [execute_tool] returned for it, and [s'] is the
    state after the last one. *)
Inductive served : list block -> St -> list tool_result -> St -> Prop :=
| served_nil (s : St) : served [] s [] s
| served_tool (id name : string) (input : gmap string value) (rest : list block)
    (s s1 s2 : St) (out : string) (results : list tool_result) :
    tools.execute_tool caps name input s = (Ok out, s1) ->
    served rest s1 results s2 ->
    served (ToolUseBlock id name input :: rest) s
      ({| tool_use_id := id; result_content := out |} :: results) s2
| served_text (t : string) (rest : list block) (s s2 : St)
    (results : list tool_result) :
    served rest s results s2 -> served (TextBlock t :: rest) s results s2
| served_other (rest : list block) (s s2 : St) (results : list tool_result) :
    served rest s results s2 -> served (OtherBlock :: rest) s results s2.

(** The [while iteration < max_iterations] loop, with [remaining] the
    difference [max_iterations - iteration]. *)
Fixpoint loop (remaining : nat) (system_prompt : string) (messages : list message)
  : M St string :=
  match remaining with
  | O => ret FALLBACK
  | S remaining' =>
      response <- perform (EModel system_prompt messages)
                    (messages_create system_prompt messages) ;;
      if String.eqb (stop_reason response) "end_turn" then
        ret (strip (join " " (text_blocks (response_content response))))
      else if String.eqb (stop_reason response) "tool_use" then
        let messages1 :=
          messages ++ [{| role := "assistant";
                          message_content := Blocks (response_content response) |}] in
        tool_results <- run_tools (response_content response) ;;
        loop remaining' system_prompt
          (messages1 ++ [{| role := "user";
                            message_content := ToolResults tool_results |}])
      else
        ret FALLBACK
  end.

Definition run_agent (user_message recent_conversation : string) : M St string :=
  loop max_iterations (_load_system_prompt recent_conversation)
    [{| role := "user"; message_content := Text user_message |}].

End WithModel.
End runner.

(* ===================================================================== *)
(** * [src/ingestion/ingest.py] *)
(* ===================================================================== *)

Module ingest.
Import Py.

Definition CHUNK_SIZE : Z := 250.
Definition CHUNK_OVERLAP : Z := 30.

(** The [while start < len(text)] loop; [None] when the fuel runs out
    before the loop ends. *)
Fixpoint chunk_loop (fuel : nat) (text : string) (chunk_size overlap : Z)
  (start : Z) (chunks : list string) : option (list string) :=
  match fuel with
  | O => None
  | S fuel' =>
      if (start <? len text)%Z then
        let end_ := (start + chunk_size)%Z in
        chunk_loop fuel' text chunk_size overlap
          (start + (chunk_size - overlap))%Z
          (chunks ++ [slice text start end_])
      else Some chunks
  end.

(** The slices the loop takes, in order: one per offset [0], [step],
    [2 * step], ... below [len(text)], where [step] is
    [chunk_size - overlap]. *)
Definition windows (text : string) (chunk_size overlap : Z) : list string :=
  let step := (chunk_size - overlap)%Z in
  (fun k => slice text (Z.of_nat k * step) (Z.of_nat k * step + chunk_size))
  <$> seq 0 (Z.to_nat ((len text + step - 1) / step)).

(** The chunks are the substrings of [text] found at offsets that start
    somewhere and increase by exactly [step] from one chunk to the next. *)
Definition at_regular_offsets (text : string) (step : nat) (chunks : list string)
  : Prop :=
  exists first : nat,
    forall (i : nat) (c : string),
      chunks !! i = Some c ->
      String.substring (first + i * step) (String.length c) text = c.

(** [[c.strip() for c in chunks if c.strip()]] *)
Definition stripped (chunks : list string) : list string :=
  omap (fun c => if truthy (strip c) then Some (strip c) else None) chunks.

Definition chunk_text (fuel : nat) (text : string) (chunk_size overlap : Z)
  : option (list string) :=
  stripped <$> chunk_loop fuel text chunk_size overlap 0 [].

End ingest.

(* ===================================================================== *)
(** * [src/config.py]: [validate] *)
(* ===================================================================== *)

Module environ.
Import Py.

(** The five variables [validate] looks at, as [os.getenv] gave them. *)
Record env := {
  TELEGRAM_TOKEN : option string;
  ANTHROPIC_API_KEY : option string;
  OPENAI_API_KEY : option string;
  SUPABASE_URL : option string;
  SUPABASE_SERVICE_KEY : option string
}.

(** [not v] for a value of [os.getenv]: unset, or set to the empty string. *)
Definition unset (v : option string) : Prop :=
  match v with
  | Some s => truthy s = false
  | None => True
  end.

#[global] Instance unset_dec (v : option string) : Decision (unset v).
Proof. destruct v as [s|]; cbn; apply _. Defined.

Definition required (e : env) : list (string * option string) :=
  [ ("TELEGRAM_TOKEN", TELEGRAM_TOKEN e);
    ("ANTHROPIC_API_KEY", ANTHROPIC_API_KEY e);
    ("OPENAI_API_KEY", OPENAI_API_KEY e);
    ("SUPABASE_URL", SUPABASE_URL e);
    ("SUPABASE_SERVICE_KEY", SUPABASE_SERVICE_KEY e) ].

(** [[k for k, v in required.items() if not v]] *)
Definition missing (e : env) : list string :=
  (filter (fun kv => unset kv.2) (required e)).*1.

Definition validate (e : env) : outcome () :=
  match missing e with
  | [] => Ok ()
  | names =>
      Raise (Error ("Missing required environment variables: " +:+ join ", " names))
  end.

End environ.

(* ===================================================================== *)
(** * [src/bot/users.py] *)
(* ===================================================================== *)

Module users.
Import Py.

(** A row of the table [users]. *)
Record user := {
  user_id : Z;
  chat_id : Z;
  first_name : string;
  last_name : string;
  language_code : string;
  created_at : Z
}.

(** [s or dflt] *)
Definition or_else (s dflt : string) : string :=
  if truthy s then s else dflt.

End users.

(* ===================================================================== *)
(** * [src/ingestion/ingest.py]: [upsert_chunks] *)
(* ===================================================================== *)

Module store.

Definition batch_size : nat := 100.

(** A row of the vector table. *)
Record chunk_row (E : Type) := {
  content : string;
  embedding : E;
  fileName : string;
  date : Z
}.
Arguments content {E} _.
Arguments embedding {E} _.
Arguments fileName {E} _.
Arguments date {E} _.

(** The rows built from [zip(chunks, embeddings)]. *)
Definition rows_of {E} (chunks : list string) (embeddings : list E)
  (file_name : string) (now : Z) : list (chunk_row E) :=
  (fun ce => {| content := ce.1; embedding := ce.2; fileName := file_name; date := now |})
  <$> zip chunks embeddings.

(** [range(0, n, batch_size)] *)
Definition starts (n : nat) : list nat :=
  (fun k => k * batch_size) <$> seq 0 ((n + batch_size - 1) / batch_size).

(** [rows[i : i + batch_size]] for each start [i]. *)
Definition batches {R} (rows : list R) : list (list R) :=
  (fun i => take batch_size (drop i rows)) <$> starts (length rows).

(** The [for] loop: one insert per batch, recorded with the batch sent; an
    exception of an insert ends the loop. *)
Fixpoint insert_all {X R} (insert : list R -> X -> outcome () * X)
  (bs : list (list R)) : M (logged X (list R)) () :=
  match bs with
  | [] => ret ()
  | b :: bs' => perform b (insert b) ;;; insert_all insert bs'
  end.

Definition upsert_chunks {X E} (insert : list (chunk_row E) -> X -> outcome () * X)
  (chunks : list string) (embeddings : list E) (file_name : string) (now : Z)
  : M (logged X (list (chunk_row E))) () :=
  insert_all insert (batches (rows_of chunks embeddings file_name now)).

End store.

(* ===================================================================== *)
(** * [src/bot/handlers.py] *)
(* ===================================================================== *)

Module handlers.
Import Py.

Definition APOLOGY : string :=
  "Sorry, something went wrong on my end. Please try again in a moment.".

(** What the handler reads of a Telegram update; [text] is [None] when the
    update has no message or the message no text. *)
Record update := {
  text : option string;
  user_id : Z;
  chat_id : Z;
  message_id : Z;
  update_id : Z;
  first_name : option string;
  last_name : option string;
  language_code : option string
}.

(** [v or dflt] for an optional field. *)
Definition or_default (v : option string) (dflt : string) : string :=
  match v with
  | Some s => if truthy s then s else dflt
  | None => dflt
  end.

(** The state of one bot: the agent's state (with the outside world), the
    three tables, and the replies delivered to the chat. *)
Record bot (W : Type) := Bot {
  agent : logged W event;
  users_table : list users.user;
  chat_logs : list context.row;
  minimal_context : list context.row;
  sent : list string
}.
Arguments Bot {W} _ _ _ _ _.
Arguments agent {W} _.
Arguments users_table {W} _.
Arguments chat_logs {W} _.
Arguments minimal_context {W} _.
Arguments sent {W} _.

Section WithWorld.
Context {W : Type}.
(** The hosted model and the backing capabilities, as for [runner]. *)
Context (messages_create : string -> list message -> W -> outcome response * W).
Context (caps : Capabilities W).
Context (base_prompt : string).
(** One request to the datastore: it may fail. *)
Context (db_request : W -> outcome () * W).
(** [datetime.now(timezone.utc)] *)
Context (clock : W -> Z).
(** [message.reply_text]: it may fail. *)
Context (reply_text : string -> W -> outcome () * W).
(** The stored procedure [trim_minimal_context], kept in the datastore. *)
Context (rpc_trim : Z -> list context.row -> list context.row).

#[local] Abbreviation St := (bot W).

Definition with_world (w : W) (s : St) : St :=
  Bot (Logged w (calls (agent s))) (users_table s) (chat_logs s)
    (minimal_context s) (sent s).

Definition world (s : St) : W := outside (agent s).

(** A request to the datastore that, when it succeeds, has the effect
    [effect] on the tables and gives [value]. *)
Definition request {A} (value : St -> A) (effect : St -> St) : M St A :=
  fun s =>
    match db_request (world s) with
    | (Ok _, w') => (Ok (value s), with_world w' (effect s))
    | (Raise e, w') => (Raise e, with_world w' s)
    end.

(** [ensure_user_exists] of [users.py]: a select, then an insert when the
    select found no row. *)
Definition ensure_user_exists (user_id chat_id : Z)
  (first_name last_name language_code : string) : M St bool :=
  found <- request
             (fun s => filter (fun r => users.user_id r = user_id) (users_table s))
             (fun s => s) ;;
  match found with
  | _ :: _ => ret false
  | [] =>
      request (fun _ => true)
        (fun s =>
           Bot (agent s)
             (users_table s
              ++ [ {| users.user_id := user_id; users.chat_id := chat_id;
                      users.first_name := first_name;
                      users.last_name := users.or_else last_name "";
                      users.language_code := users.or_else language_code "en";
                      users.created_at := clock (world s) |} ])
             (chat_logs s) (minimal_context s) (sent s))
  end.

Definition log_message (user_id chat_id : Z) (role text : string)
  (message_id update_id : option Z) : M St () :=
  request (fun _ => ())
    (fun s =>
       Bot (agent s) (users_table s)
         (context.save_to_context (clock (world s)) user_id chat_id role text
            message_id update_id (chat_logs s))
         (minimal_context s) (sent s)).

Definition save_to_context (user_id chat_id : Z) (role text : string)
  (message_id update_id : option Z) : M St () :=
  request (fun _ => ())
    (fun s =>
       Bot (agent s) (users_table s) (chat_logs s)
         (context.save_to_context (clock (world s)) user_id chat_id role text
            message_id update_id (minimal_context s))
         (sent s)).

Definition trim_context (user_id : Z) : M St () :=
  request (fun _ => ())
    (fun s =>
       Bot (agent s) (users_table s) (chat_logs s)
         (rpc_trim user_id (minimal_context s)) (sent s)).

Definition load_context (user_id : Z) : M St (list context.entry) :=
  request (fun s => context.load_context user_id (minimal_context s)) (fun s => s).

(** [run_agent], on the agent's part of the state. *)
Definition run_agent (user_message recent_conversation : string) : M St string :=
  fun s =>
    let '(r, a') :=
      runner.run_agent messages_create caps base_prompt
        user_message recent_conversation (agent s) in
    (r, Bot a' (users_table s) (chat_logs s) (minimal_context s) (sent s)).

(** [await message.reply_text(text)]: a reply that was delivered is
    recorded in [sent]. *)
Definition reply (text : string) : M St () :=
  fun s =>
    match reply_text text (world s) with
    | (Ok _, w') =>
        (Ok (),
         Bot (Logged w' (calls (agent s))) (users_table s) (chat_logs s)
           (minimal_context s) (sent s ++ [text]))
    | (Raise e, w') => (Raise e, with_world w' s)
    end.

(** The body of the [try] block. *)
Definition pipeline (u : update) (text : string) : M St () :=
  ensure_user_exists (user_id u) (chat_id u)
    (or_default (first_name u) "") (or_default (last_name u) "")
    (or_default (language_code u) "en") ;;;
  log_message (user_id u) (chat_id u) "user" text
    (Some (message_id u)) (Some (update_id u)) ;;;
  save_to_context (user_id u) (chat_id u) "user" text
    (Some (message_id u)) (Some (update_id u)) ;;;
  trim_context (user_id u) ;;;
  context_messages <- load_context (user_id u) ;;
  let recent_conversation := context.format_context_for_prompt context_messages in
  answer <- run_agent text recent_conversation ;;
  log_message (user_id u) (chat_id u) "assistant" answer None (Some (update_id u)) ;;;
  save_to_context (user_id u) (chat_id u) "assistant" answer None (Some (update_id u)) ;;;
  trim_context (user_id u) ;;;
  reply answer.

Definition handle_message (u : update) : M St () :=
  match text u with
  | None => ret ()
  | Some text =>
      if truthy text then try_except (pipeline u text) (fun _ => reply APOLOGY)
      else ret ()
  end.

End WithWorld.
End handlers.

(* ===================================================================== *)
(** * Vocabulary for the properties *)
(* ===================================================================== *)

(** [d.get(key)] on a [dict] kept as an association list. *)
Fixpoint dict_get (d : Py.dict) (key : string) : option Py.value :=
  match d with
  | [] => None
  | (k, v) :: d' => if String.eqb k key then Some v else dict_get d' key
  end.

(** Calls that only read the calendar. *)
Definition reads_calendar (c : call) : bool :=
  match c with
  | CGetService | CEventsList _ _ _ _ _ => true
  | _ => false
  end.

Definition is_insert (c : call) : bool :=
  match c with CEventsInsert _ _ => true | _ => false end.

Definition is_delete (c : call) : bool :=
  match c with CEventsDelete _ _ => true | _ => false end.

(** The system prompt and message list of each model call recorded. *)
Definition model_inputs (evs : list event) : list (string * list message) :=
  omap (fun e => match e with EModel sys msgs => Some (sys, msgs) | _ => None end) evs.

(** The roles of the messages [k] tool turns add. *)
Fixpoint turns (k : nat) : list string :=
  match k with
  | O => []
  | S k' => "assistant" :: "user" :: turns k'
  end.

(** From [s] to [s'] no reply was delivered, and the permanent log and the
    table of users were at most extended. *)
Definition grows {W} (s s' : handlers.bot W) : Prop :=
  handlers.sent s' = handlers.sent s
  /\ handlers.chat_logs s `prefix_of` handlers.chat_logs s'
  /\ handlers.users_table s `prefix_of` handlers.users_table s'.

(** A step that delivers no reply and only extends the log and the users. *)
Definition silent {W A} (c : M (handlers.bot W) A) : Prop :=
  forall s r s', c s = (r, s') -> grows s s'.

(** A computation that delivers exactly one reply when it returns, and
    none when it raises. *)
Definition replies_at_the_end {W A} (c : M (handlers.bot W) A) : Prop :=
  forall s r s',
    c s = (r, s') ->
    handlers.chat_logs s `prefix_of` handlers.chat_logs s'
    /\ handlers.users_table s `prefix_of` handlers.users_table s'
    /\ match r with
       | Ok _ => exists answer, handlers.sent s' = handlers.sent s ++ [answer]
       | Raise _ => handlers.sent s' = handlers.sent s
       end.

(** Every character of the string is whitespace for [str.strip]. *)
Fixpoint only_whitespace (s : string) : bool :=
  match s with
  | EmptyString => true
  | String c s' => Py.isspace c && only_whitespace s'
  end.

(** The keys of [tool_input] the dispatcher looks at for a tool, by
    subscript or by [.get]. *)
Definition reads (tool_name : string) : list string :=
  tools.subscripted tool_name
  ++ (if String.eqb tool_name "create_booking" then ["guest_email"; "guest_phone"] else []).

(* ===================================================================== *)
(** * Stubs for concrete runs *)
(* ===================================================================== *)

(** Services that always succeed and know of no event. *)
Definition no_services : Services () := {|
  embedding := ();
  get_service x := (Ok (), x);
  events_list _ _ _ _ _ x := (Ok [], x);
  events_insert _ _ x := (Ok (Some "evt1"), x);
  events_delete _ _ x := (Ok (), x);
  embeddings_create _ _ x := (Ok [()], x);
  rpc_match_documents _ _ x := (Ok [], x);
  next_day d := Ok d
|}.

Definition shed_dates : gmap string Py.value :=
  <["property_name" := Py.PStr "The Shed"]>
    (<["check_in_date" := Py.PStr "2025-12-04"]>
       (<["check_out_date" := Py.PStr "2025-12-07"]> ∅)).

(** A response that asks for two tools, one of them unregistered. *)
Definition two_tools : response :=
  {| stop_reason := "tool_use";
     response_content :=
       [ TextBlock "Let me check.";
         ToolUseBlock "toolu_01" "foo" ∅;
         ToolUseBlock "toolu_02" "check_availability" shed_dates ] |}.

(** A model that always asks for these tools. *)
Definition model_always_tools {W} (_ : string) (_ : list message) (w : W)
  : outcome response * W :=
  (Ok two_tools, w).

(** A model that stops for lack of tokens. *)
Definition model_max_tokens {W} (_ : string) (_ : list message) (w : W)
  : outcome response * W :=
  (Ok {| stop_reason := "max_tokens"; response_content := [TextBlock "I was say"] |}, w).

(** A model that answers at once. *)
Definition model_hello {W} (_ : string) (_ : list message) (w : W)
  : outcome response * W :=
  (Ok {| stop_reason := "end_turn";
         response_content := [TextBlock "Hello"; OtherBlock; TextBlock "there"] |}, w).

Definition stub_caps : Capabilities (logged () call) := tools.repository no_services.

Definition start : logged (logged () call) event := Logged (Logged () []) [].

(** Capabilities that all fail. *)
Definition failing_caps : Capabilities (logged () call) := {|
  cap_search_knowledge_base _ w := (Raise (Py.Error "connection refused"), w);
  cap_check_availability _ _ _ w := (Raise (Py.Error "connection refused"), w);
  cap_create_booking _ _ _ _ _ _ w := (Raise (Py.Error "connection refused"), w);
  cap_cancel_booking _ _ _ w := (Raise (Py.Error "connection refused"), w)
|}.

Definition pool_query : gmap string Py.value := <["query" := Py.PStr "pool"]> ∅.

Definition booking_input : gmap string Py.value :=
  <["property_name" := Py.PStr "The Glasshouse"]>
    (<["check_in_date" := Py.PStr "2025-12-04"]>
       (<["check_out_date" := Py.PStr "2025-12-07"]>
          (<["guest_name" := Py.PStr "Ada Lovelace"]> ∅))).

(** The same request with a list where the property name should be. *)
Definition list_booking_input : gmap string Py.value :=
  <["property_name" := Py.PList [Py.PStr "The Glasshouse"]]>
    (<["check_in_date" := Py.PStr "2025-12-04"]>
       (<["check_out_date" := Py.PStr "2025-12-07"]>
          (<["guest_name" := Py.PStr "Ada Lovelace"]> ∅))).

(** Appends for user 7 at the clock readings [first], [first + 1], ... *)
Definition appends (first : Z) (n : nat) : list context.op :=
  (fun k => context.Append (first + Z.of_nat k) 7 7 "user" "hello" None None) <$> seq 0 n.

(** One append, one trim, eleven appends. *)
Definition overfull_ops : list context.op :=
  appends 1 1 ++ [context.Trim 7] ++ appends 2 11.

(** Twelve appends, each followed by a trim, with an append for another
    user in between. *)
Definition paired_ops : list context.op :=
  flat_map (fun o => [o; context.Trim 7;
                      context.Append 100 8 8 "user" "other" None None]) (appends 1 12).

(** An update with the text "hi" from user 7. *)
Definition hi_update : handlers.update :=
  {| handlers.text := Some "hi"; handlers.user_id := 7; handlers.chat_id := 7;
     handlers.message_id := 1; handlers.update_id := 1;
     handlers.first_name := Some "Ada"; handlers.last_name := None;
     handlers.language_code := None |}.

(** A bot that has seen nothing yet. *)
Definition fresh_bot : handlers.bot (logged () call) :=
  handlers.Bot start [] [] [] [].

(** A datastore and a chat that never fail, and a clock that stands still. *)
Definition always_ok {W} (w : W) : outcome () * W := (Ok (), w).
Definition clock_noon {W} (_ : W) : Z := 12.
Definition deliver {W} (_ : string) (w : W) : outcome () * W := (Ok (), w).

(** The pipeline on these. *)
Definition hi_pipeline : M (handlers.bot (logged () call)) () :=
  handlers.pipeline model_hello stub_caps "Be kind." always_ok clock_noon deliver
    (context.trim_context config.CONTEXT_MESSAGE_LIMIT) hi_update "hi".

(* ===================================================================== *)
(** * Concrete evaluations of the built-ins *)
(* ===================================================================== *)

Example strip_ex1 : Py.strip "  Hello there
 " = "Hello there".
Proof. reflexivity. Qed.

Example slice_ex1 : Py.slice "abcdef" 2 4 = "cd".
Proof. reflexivity. Qed.

Example slice_ex2 : Py.slice "abcdef" 4 10 = "ef".
Proof. reflexivity. Qed.

Example slice_ex3 : Py.slice "abcdef" (-2) 10 = "ef".
Proof. reflexivity. Qed.

Example join_ex1 : Py.join " " ["Hello"; "there"] = "Hello there".
Proof. reflexivity. Qed.

Example dumps_ex1 :
  json.loads (json.dumps [("available", Py.PBool false); ("message", Py.PStr "a/b
c")])
  = Some [("available", Py.PBool false); ("message", Py.PStr "a/b
c")].
Proof. reflexivity. Qed.

Example dumps_ex2 :
  json.dumps [("ok", Py.PNone); ("m", Py.PStr "x\y")]
  = "{" +:+ json.encode_str "ok" +:+ ": null, " +:+ json.encode_str "m" +:+ ": "
    +:+ String json.dquote ("x\\y" +:+ String json.dquote "}").
Proof. reflexivity. Qed.

(* ===================================================================== *)
(** * Properties *)
(* ===================================================================== *)

(** ** The context window: [format_context_for_prompt] *)

Section FormatContext.
Import context.

(** C7, as stated, fails: the placeholder the code returns for the empty
    window is not the string "no previous conversation". *)
Lemma format_context_placeholder_differs :
  format_context_for_prompt [] ≠ "no previous conversation".
Proof. discriminate. Qed.

(** C7 (amended): on the empty sequence [format_context_for_prompt]
    returns the fixed placeholder "(No previous conversation)"; on a
    non-empty sequence it returns the lines "<role>: <text>", one per entry
    and in input order, joined by newlines. *)
Theorem format_context_for_prompt_spec :
  format_context_for_prompt [] = "(No previous conversation)"
  /\ forall (m : entry) (ms : list entry),
       format_context_for_prompt (m :: ms)
       = Py.join newline ((fun e => entry_role e +:+ ": " +:+ entry_text e) <$> (m :: ms))
       /\ length ((fun e => entry_role e +:+ ": " +:+ entry_text e) <$> (m :: ms))
          = length (m :: ms).
Proof.
  split; [reflexivity|].
  intros m ms. split; [reflexivity|]. by rewrite length_fmap.
Qed.

End FormatContext.

(** ** The calendar: unknown properties *)

Section UnknownProperty.
Context {X : Type} (svc : Services X).

Lemma calendar_map_unknown (property_name : string) :
  property_name ∉ config.PROPERTY_NAMES ->
  config.CALENDAR_MAP !! property_name = None.
Proof.
  intros Hnot. unfold config.CALENDAR_MAP. by apply not_elem_of_list_to_map_1.
Qed.

Lemma resolve_unknown (property_name : string) :
  property_name ∉ config.PROPERTY_NAMES ->
  cal._resolve_calendar (Py.PStr property_name) = Ok None.
Proof.
  intros Hnot. unfold cal._resolve_calendar. f_equal.
  by apply calendar_map_unknown.
Qed.

(** C8: for a property name outside the six enumerated ones,
    [check_availability] returns [available = False] together with the
    message naming the unknown property, and the state is left as it was:
    no call to the calendar (or to anything else) is made. *)
Theorem check_availability_unknown_property
  (property_name : string) (check_in_date check_out_date : Py.value)
  (s : logged X call) :
  property_name ∉ config.PROPERTY_NAMES ->
  cal.check_availability svc (Py.PStr property_name) check_in_date check_out_date s
  = (Ok [ ("available", Py.PBool false);
          ("message", Py.PStr ("Unknown property: " +:+ property_name +:+
                               ". Please choose from the available properties.")) ],
     s).
Proof.
  intros Hnot. unfold cal.check_availability, bind, lift.
  by rewrite (resolve_unknown _ Hnot).
Qed.

End UnknownProperty.

(** The unknown property "The Shed", with services that are never reached. *)
Lemma check_availability_unknown_property_witness :
  ("The Shed" ∉ config.PROPERTY_NAMES)
  /\ cal.check_availability no_services (Py.PStr "The Shed") (Py.PStr "2025-12-04")
       (Py.PStr "2025-12-07") (Logged () [])
     = (Ok [ ("available", Py.PBool false);
             ("message", Py.PStr "Unknown property: The Shed. Please choose from the available properties.") ],
        Logged () []).
Proof.
  assert (H : "The Shed" ∉ config.PROPERTY_NAMES)
    by (apply (bool_decide_unpack _); vm_compute; exact I).
  split; [exact H|].
  exact (check_availability_unknown_property no_services
           "The Shed" (Py.PStr "2025-12-04") (Py.PStr "2025-12-07") (Logged () []) H).
Defined.

(** ** JSON: what [dumps] writes, [loads] reads back *)

Section JsonRoundTrip.
Import json.

Lemma append_assoc (a b c : string) : (a +:+ b) +:+ c = a +:+ (b +:+ c).
Proof. induction a as [|x a IH]; simpl; [done|]. by rewrite IH. Qed.

Lemma append_empty_r (a : string) : a +:+ "" = a.
Proof. induction a as [|x a IH]; simpl; [done|]. by rewrite IH. Qed.

Lemma scanstring_escape_char (c : ascii) (t r : string) (rest : string) :
  scanstring rest = Some (t, r) ->
  scanstring (escape_char c +:+ rest) = Some (String c t, r).
Proof.
  intros Hrest.
  destruct c as [[] [] [] [] [] [] [] []]; simpl; rewrite Hrest; reflexivity.
Qed.

Lemma scanstring_escape (s r : string) :
  scanstring (escape s +:+ String dquote r) = Some (s, r).
Proof.
  induction s as [|c s IH]; [reflexivity|].
  cbn [escape]. rewrite append_assoc. by apply scanstring_escape_char.
Qed.


Lemma dumps_singleton (k v : string) :
  dumps [(k, Py.PStr v)]
  = String "{" (String dquote (escape k +:+ String dquote (String ":" (String " "
      (String dquote (escape v +:+ String dquote "}")))))).
Proof.
  unfold dumps, encode_item, encode_str; simpl.
  rewrite !append_assoc. simpl. rewrite !append_assoc. reflexivity.
Qed.

(** An object with one string member is read back as written. *)
Lemma loads_dumps_singleton (k v : string) :
  loads (dumps [(k, Py.PStr v)]) = Some [(k, Py.PStr v)].
Proof.
  rewrite dumps_singleton. unfold loads.
  cbn [skip_ws is_ws N_of_ascii]. simpl.
  rewrite scanstring_escape. simpl. rewrite scanstring_escape. simpl.
  reflexivity.
Qed.

(** The text of an object starts with its first key. *)
Lemma dumps_first_key (k : string) (v : Py.value) (d : Py.dict) :
  exists tail : string,
    dumps ((k, v) :: d) = String "{" (String dquote (escape k +:+ tail)).
Proof.
  unfold dumps. cbn [fmap list_fmap]. destruct d as [|kv d].
  - cbn [Py.join]. unfold encode_item, encode_str. cbn [fst snd].
    eexists. simpl. rewrite !append_assoc. reflexivity.
  - cbn [Py.join fmap list_fmap]. unfold encode_item at 1, encode_str at 1. cbn [fst snd].
    eexists. simpl. rewrite !append_assoc. reflexivity.
Qed.

End JsonRoundTrip.

(** ** The tool dispatcher *)

Section Dispatcher.
Import tools.
Context {W : Type} (caps : Capabilities W).

Lemma eqb_false_of_not_in (name x : string) (l : list string) :
  name ∉ l -> x ∈ l -> String.eqb name x = false.
Proof.
  intros Hnot Hin. apply String.eqb_neq. intros ->. by apply Hnot.
Qed.

Lemma dispatch_unknown (tool_name : string) (tool_input : gmap string Py.value)
  (s : logged W event) :
  tool_name ∉ REGISTERED ->
  dispatch caps tool_name tool_input s
  = (Ok (RDict [("error", Py.PStr ("Unknown tool: " +:+ tool_name))]), s).
Proof.
  intros Hnot. unfold dispatch.
  rewrite !(eqb_false_of_not_in tool_name _ REGISTERED Hnot) by (unfold REGISTERED; set_solver).
  reflexivity.
Qed.

(** C5: for a tool name outside the registered set, [execute_tool]
    returns at once a string that deserialises as the JSON object
    [{"error": "Unknown tool: <name>"}]; it does not raise, the world is
    untouched, and the only thing recorded is the dispatch itself: no
    backing capability is called. *)
Theorem execute_tool_unknown_tool (tool_name : string)
  (tool_input : gmap string Py.value) (s : logged W event) :
  tool_name ∉ REGISTERED ->
  exists out : string,
    execute_tool caps tool_name tool_input s
    = (Ok out, Logged (outside s) (calls s ++ [ETool tool_name tool_input]))
    /\ json.loads out = Some [("error", Py.PStr ("Unknown tool: " +:+ tool_name))].
Proof.
  intros Hnot.
  exists (json.dumps [("error", Py.PStr ("Unknown tool: " +:+ tool_name))]).
  split; [|apply loads_dumps_singleton].
  unfold execute_tool, bind, emit, try_except.
  by rewrite (dispatch_unknown _ _ _ Hnot).
Qed.

(** C4: [execute_tool] returns a string and never raises, for every tool
    name, every input and every four backing capabilities.  The string is
    the payload of what the [try] block came to.  When a subscripted field
    is missing it is the "Tool failed" payload of that [KeyError], and no
    capability is called.  Otherwise the backing capability of the tool is
    called once, with the fields of the input, and the string is the text
    of the [dict] the capability returns, the [str] it returns as it is,
    or, when the capability raises [e], the payload
    [{"error": "Tool failed: <str(e)>"}]. *)
Theorem execute_tool_never_raises (tool_name : string)
  (tool_input : gmap string Py.value) (s : logged W event) :
  let s0 := Logged (outside s) (calls s ++ [ETool tool_name tool_input]) in
  let payload (r : outcome result) : string :=
    match r with
    | Raise e => json.dumps [("error", Py.PStr ("Tool failed: " +:+ Py.str_exn e))]
    | Ok (RDict d) => json.dumps d
    | Ok (RStr t) => t
    end in
  exists (out : string) (s' : logged W event),
    execute_tool caps tool_name tool_input s = (Ok out, s')
    /\ (forall key : string,
          first_missing (subscripted tool_name) tool_input = Some key ->
          out = payload (Raise (Py.KeyError key)) /\ s' = s0)
    /\ (forall query : Py.value,
          tool_name = "search_knowledge_base" ->
          tool_input !! "query" = Some query ->
          let '(r, w') := cap_search_knowledge_base caps query (outside s) in
          out = payload r
          /\ s' = Logged w' (calls s0 ++ [ECapability tool_name [query]]))
    /\ (forall p i o : Py.value,
          tool_name = "check_availability" ->
          tool_input !! "property_name" = Some p ->
          tool_input !! "check_in_date" = Some i ->
          tool_input !! "check_out_date" = Some o ->
          let '(r, w') := cap_check_availability caps p i o (outside s) in
          out = payload r
          /\ s' = Logged w' (calls s0 ++ [ECapability tool_name [p; i; o]]))
    /\ (forall p i o g : Py.value,
          tool_name = "create_booking" ->
          tool_input !! "property_name" = Some p ->
          tool_input !! "check_in_date" = Some i ->
          tool_input !! "check_out_date" = Some o ->
          tool_input !! "guest_name" = Some g ->
          let e := get tool_input "guest_email" "" in
          let ph := get tool_input "guest_phone" "" in
          let '(r, w') := cap_create_booking caps p i o g e ph (outside s) in
          out = payload r
          /\ s' = Logged w' (calls s0 ++ [ECapability tool_name [p; i; o; g; e; ph]]))
    /\ (forall p g i : Py.value,
          tool_name = "cancel_booking" ->
          tool_input !! "property_name" = Some p ->
          tool_input !! "guest_name" = Some g ->
          tool_input !! "check_in_date" = Some i ->
          let '(r, w') := cap_cancel_booking caps p g i (outside s) in
          out = payload r
          /\ s' = Logged w' (calls s0 ++ [ECapability tool_name [p; g; i]])).
Proof.
  intros s0 payload.
  assert (Hrun : execute_tool caps tool_name tool_input s
                 = match dispatch caps tool_name tool_input s0 with
                   | (Ok r, s1) => (Ok (to_str r), s1)
                   | (Raise e, s1) => (Ok (to_str (tool_failed e)), s1)
                   end).
  { unfold execute_tool, bind, emit, try_except, ret. fold s0.
    by destruct (dispatch caps tool_name tool_input s0) as [[r|e] s1]. }
  rewrite Hrun. clear Hrun.
  destruct (dispatch caps tool_name tool_input s0) as [[r|e] s1] eqn:Hd;
    eexists _, _; (split; [reflexivity|]).
  all: (split; [|split; [|split; [|split]]]); intros;
    repeat match goal with x := _ |- _ => subst x end.
  all: first
    [ match goal with
      | H : first_missing _ _ = Some _ |- _ =>
          revert H Hd; unfold subscripted, dispatch, bind, getitem, raise, ret;
          repeat (match goal with
                  | |- context [String.eqb ?n ?x] => is_var n; destruct (String.eqb n x)
                  | |- context [?m !! ?k] => destruct (m !! k)
                  end; cbn [first_missing]);
          intros; by simplify_eq
      end
    | match goal with H : ?n = _ |- _ => is_var n; subst n end;
      revert Hd; unfold dispatch, getitem, get;
      cbn [String.eqb Ascii.eqb Bool.eqb];
      repeat match goal with H : _ !! _ = Some _ |- _ => rewrite H; clear H end;
      eff;
      repeat match goal with
             | |- context [let '(_, _) := ?c in _] => destruct c as [[[?|?]|?] ?]
             end;
      intros; by simplify_eq ].
Qed.
End Dispatcher.

(** ** [create_booking] without an e-mail address *)

Section BookingWithoutEmail.
Import tools.
Context {X : Type} (svc : Services X).

(** Whatever the services do, [cal.create_booking] returns, for a property
    name that can be hashed, a [dict] whose first key is ["success"]. *)
Lemma create_booking_returns (p i o g e ph : Py.value) (s : logged X call) :
  Py.hashable p = true ->
  exists (v : Py.value) (d : Py.dict) (s' : logged X call),
    cal.create_booking svc p i o g e ph s = (Ok (("success", v) :: d), s').
Proof.
  intros Hp. unfold cal.create_booking, bind at 1, lift.
  destruct (cal._resolve_calendar p) as [c|err] eqn:Hr; [|by destruct p].
  destruct (cal.resolved c) as [c'|]; [|by eexists _, _, _].
  unfold try_except, bind, cal._get_service, perform, ret.
  destruct (get_service svc (outside s)) as [[u|err] x1]; [|by eexists _, _, _].
  cbn [outside calls].
  match goal with
  | |- context [events_insert svc ?c ?b ?x] =>
      destruct (events_insert svc c b x) as [[eid|err] x2]
  end; by eexists _, _, _.
Qed.

(** For a property name that cannot be hashed it raises the [TypeError] of
    the lookup, before anything else is done. *)
Lemma create_booking_unhashable (p i o g e ph : Py.value) (s : logged X call) :
  Py.hashable p = false ->
  cal.create_booking svc p i o g e ph s
  = (Raise (Py.Error ("unhashable type: '" +:+ Py.type_name p +:+ "'")), s).
Proof. by destruct p. Qed.

Lemma dumps_success_not_error (v : Py.value) (d : Py.dict) (msg : string) :
  json.dumps (("success", v) :: d) ≠ json.dumps [("error", Py.PStr msg)].
Proof.
  destruct (dumps_first_key "success" v d) as [t1 ->].
  destruct (dumps_first_key "error" (Py.PStr msg) []) as [t2 ->].
  simpl. discriminate.
Qed.


End BookingWithoutEmail.

(** ** The agent loop *)

Section AgentLoop.
Import runner.
Context {W : Type}.
Context (messages_create : string -> list message -> W -> outcome response * W).
Context (caps : Capabilities W).
Context (base_prompt : string).

#[local] Abbreviation St := (logged W event).
#[local] Abbreviation loop := (runner.loop messages_create caps).
#[local] Abbreviation run_tools := (runner.run_tools caps).
#[local] Abbreviation run_agent := (runner.run_agent messages_create caps base_prompt).

Lemma model_calls_app (l1 l2 : list event) :
  model_calls (l1 ++ l2) = model_calls l1 + model_calls l2.
Proof. unfold model_calls. by rewrite List.filter_app, length_app. Qed.

Lemma dispatched_app (l1 l2 : list event) :
  dispatched (l1 ++ l2) = dispatched l1 ++ dispatched l2.
Proof. unfold dispatched. apply omap_app. Qed.

(** The body of the [try] block records at most the call of one
    capability. *)
Lemma dispatch_effect (name : string) (input : gmap string Py.value) (s : St) :
  exists (r : outcome result) (s' : St) (evs : list event),
    tools.dispatch caps name input s = (r, s')
    /\ calls s' = calls s ++ evs
    /\ model_calls evs = 0
    /\ dispatched evs = [].
Proof.
  unfold tools.dispatch, tools.getitem.
  repeat (match goal with
          | |- context [String.eqb name ?x] => destruct (String.eqb name x)
          | |- context [input !! ?k] => destruct (input !! k)
          end); eff.
  all: try (eexists _, _, []; rewrite app_nil_r; by repeat split).
  all: match goal with
       | |- context [let '(_, _) := ?c in _] => destruct c as [r w']
       end; eexists _, _, [_]; by repeat split.
Qed.

Lemma execute_tool_effect (name : string) (input : gmap string Py.value) (s : St) :
  exists (out : string) (s' : St) (evs : list event),
    tools.execute_tool caps name input s = (Ok out, s')
    /\ calls s' = calls s ++ evs
    /\ model_calls evs = 0
    /\ dispatched evs = [(name, input)].
Proof.
  unfold tools.execute_tool. eff.
  destruct (dispatch_effect name input
              (Logged (outside s) (calls s ++ [ETool name input])))
    as (r & s1 & evs & Hd & Hc & Hm & Ht).
  rewrite Hd. cbn [calls] in Hc.
  destruct r as [r|e]; eexists _, s1, ([ETool name input] ++ evs);
    (split; [reflexivity|]); rewrite Hc, <- app_assoc;
    (split; [reflexivity|]); rewrite model_calls_app, dispatched_app, Hm, Ht;
    by split.
Qed.

Lemma run_tools_effect (bs : list block) (s : St) :
  exists (results : list tool_result) (s' : St) (evs : list event),
    run_tools bs s = (Ok results, s')
    /\ served caps bs s results s'
    /\ calls s' = calls s ++ evs
    /\ model_calls evs = 0
    /\ dispatched evs = (fun u => (u.1.2, u.2)) <$> tool_uses bs
    /\ tool_use_id <$> results = (fun u => u.1.1) <$> tool_uses bs.
Proof.
  revert s. induction bs as [|b bs IH]; intros s.
  - exists [], s, []. rewrite app_nil_r. repeat split; constructor.
  - destruct b as [t|id name input|].
    + destruct (IH s) as (rs & s' & evs & Hr & Hs & Hc & Hm & Hd & Hi).
      exists rs, s', evs. repeat split; try done. by constructor.
    + destruct (execute_tool_effect name input s)
        as (out & s1 & evs1 & He & Hc1 & Hm1 & Hd1).
      destruct (IH s1) as (rs & s' & evs & Hr & Hs & Hc & Hm & Hd & Hi).
      exists ({| tool_use_id := id; result_content := out |} :: rs), s', (evs1 ++ evs).
      split.
      { cbn [runner.run_tools]. unfold bind at 1. rewrite He.
        unfold bind at 1. by rewrite Hr. }
      split; [by econstructor|].
      split; [by rewrite Hc, Hc1, app_assoc|].
      split; [rewrite model_calls_app; lia|].
      split; [by rewrite dispatched_app, Hd1, Hd|].
      cbn. by rewrite Hi.
    + destruct (IH s) as (rs & s' & evs & Hr & Hs & Hc & Hm & Hd & Hi).
      exists rs, s', evs. repeat split; try done. by constructor.
Qed.

(** One turn of the loop, spelled out. *)
Lemma loop_step (n : nat) (sys : string) (msgs : list message) (s : St) :
  loop (S n) sys msgs s
  = match messages_create sys msgs (outside s) with
    | (Raise e, w') => (Raise e, Logged w' (calls s ++ [EModel sys msgs]))
    | (Ok r, w') =>
        let s1 := Logged w' (calls s ++ [EModel sys msgs]) in
        if String.eqb (stop_reason r) "end_turn" then
          (Ok (Py.strip (Py.join " " (text_blocks (response_content r)))), s1)
        else if String.eqb (stop_reason r) "tool_use" then
          match run_tools (response_content r) s1 with
          | (Ok tool_results, s2) =>
              loop n sys
                ((msgs ++ [{| role := "assistant";
                              message_content := Blocks (response_content r) |}])
                 ++ [{| role := "user"; message_content := ToolResults tool_results |}])
                s2
          | (Raise e, s2) => (Raise e, s2)
          end
        else (Ok FALLBACK, s1)
    end.
Proof.
  cbn [runner.loop]. unfold bind at 1, perform.
  destruct (messages_create sys msgs (outside s)) as [[r|e] w']; [|done].
  destruct (String.eqb (stop_reason r) "end_turn"); [done|].
  destruct (String.eqb (stop_reason r) "tool_use"); [|done].
  reflexivity.
Qed.

(** A loop with [n] turns left makes at most [n] model calls. *)
Lemma loop_model_calls (n : nat) (sys : string) (msgs : list message) (s : St) :
  exists (r : outcome string) (s' : St) (evs : list event),
    loop n sys msgs s = (r, s')
    /\ calls s' = calls s ++ evs
    /\ model_calls evs <= n.
Proof.
  revert msgs s. induction n as [|n IH]; intros msgs s.
  - exists (Ok FALLBACK), s, []. rewrite app_nil_r. repeat split. cbn; lia.
  - rewrite loop_step.
    destruct (messages_create sys msgs (outside s)) as [[r|e] w'].
    2:{ eexists _, _, [_]. repeat split. cbn; lia. }
    cbn zeta.
    destruct (String.eqb (stop_reason r) "end_turn").
    { eexists _, _, [_]. repeat split. cbn; lia. }
    destruct (String.eqb (stop_reason r) "tool_use").
    2:{ eexists _, _, [_]. repeat split. cbn; lia. }
    destruct (run_tools_effect (response_content r)
                (Logged w' (calls s ++ [EModel sys msgs])))
      as (rs & s2 & evs2 & Hr & _ & Hc2 & Hm2 & _).
    rewrite Hr. cbn [calls] in Hc2.
    match goal with
    | |- context [runner.loop _ _ n sys ?m s2] =>
        destruct (IH m s2) as (r3 & s3 & evs3 & Hl & Hc3 & Hm3)
    end.
    exists r3, s3, ([EModel sys msgs] ++ evs2 ++ evs3).
    split; [exact Hl|]. split.
    + rewrite Hc3, Hc2. by rewrite <- !app_assoc.
    + rewrite !model_calls_app, Hm2. cbn. lia.
Qed.

(** With a model that always asks for tools, a loop with [n] turns left
    makes exactly [n] model calls and ends in the fallback. *)
Lemma loop_always_tool_use (n : nat) (sys : string) (msgs : list message) (s : St) :
  (forall sys' msgs' w, exists r w',
      messages_create sys' msgs' w = (Ok r, w') /\ stop_reason r = "tool_use") ->
  exists (s' : St) (evs : list event),
    loop n sys msgs s = (Ok FALLBACK, s')
    /\ calls s' = calls s ++ evs
    /\ model_calls evs = n.
Proof.
  intros Halways. revert msgs s. induction n as [|n IH]; intros msgs s.
  - exists s, []. rewrite app_nil_r. by repeat split.
  - rewrite loop_step.
    destruct (Halways sys msgs (outside s)) as (r & w' & Hm & Hstop).
    rewrite Hm, Hstop. cbn [String.eqb Ascii.eqb Bool.eqb]. cbn zeta.
    destruct (run_tools_effect (response_content r)
                (Logged w' (calls s ++ [EModel sys msgs])))
      as (rs & s2 & evs2 & Hr & _ & Hc2 & Hm2 & _).
    rewrite Hr. cbn [calls] in Hc2.
    match goal with
    | |- context [runner.loop _ _ n sys ?m s2] =>
        destruct (IH m s2) as (s3 & evs3 & Hl & Hc3 & Hm3)
    end.
    exists s3, ([EModel sys msgs] ++ evs2 ++ evs3).
    split; [exact Hl|]. split.
    + rewrite Hc3, Hc2. by rewrite <- !app_assoc.
    + rewrite !model_calls_app, Hm2, Hm3. cbn. lia.
Qed.

(** C1: [run_agent] makes at most 10 model calls, whatever the model
    answers; with a model that answers every call by a tool-use response
    it returns the fallback string after exactly 10 model calls; and when
    the first response carries a stop reason other than ["end_turn"] and
    ["tool_use"], it returns the fallback string after that single call. *)
Theorem run_agent_iteration_budget (user_message recent_conversation : string) (s : St) :
  (exists (r : outcome string) (s' : St) (evs : list event),
      run_agent user_message recent_conversation s = (r, s')
      /\ calls s' = calls s ++ evs
      /\ model_calls evs <= 10)
  /\ ((forall sys msgs w, exists r w',
          messages_create sys msgs w = (Ok r, w') /\ stop_reason r = "tool_use") ->
      exists (s' : St) (evs : list event),
        run_agent user_message recent_conversation s = (Ok FALLBACK, s')
        /\ calls s' = calls s ++ evs
        /\ model_calls evs = 10)
  /\ (forall (r : response) (w' : W),
        let sys := _load_system_prompt base_prompt recent_conversation in
        let msgs := [{| role := "user"; message_content := Text user_message |}] in
        messages_create sys msgs (outside s) = (Ok r, w') ->
        stop_reason r ≠ "end_turn" ->
        stop_reason r ≠ "tool_use" ->
        run_agent user_message recent_conversation s
        = (Ok FALLBACK, Logged w' (calls s ++ [EModel sys msgs]))).
Proof.
  unfold runner.run_agent, max_iterations. split; [apply loop_model_calls|].
  split; [apply loop_always_tool_use|].
  cbv zeta. intros r w' Hm He Ht. rewrite loop_step, Hm.
  apply String.eqb_neq in He, Ht. by rewrite He, Ht.
Qed.

(** C3: when the model signals a final answer (stop reason ["end_turn"]),
    in whatever turn of the loop, the agent returns the text segments of
    that response joined by single spaces and stripped of surrounding
    whitespace, without any further call; for the segments "Hello" and
    "there" as first response, [run_agent] returns "Hello there". *)
Theorem run_agent_final_answer :
  (forall (n : nat) (sys : string) (msgs : list message) (s : St)
          (r : response) (w' : W),
      messages_create sys msgs (outside s) = (Ok r, w') ->
      stop_reason r = "end_turn" ->
      loop (S n) sys msgs s
      = (Ok (Py.strip (Py.join " " (text_blocks (response_content r)))),
         Logged w' (calls s ++ [EModel sys msgs])))
  /\ (forall (user_message recent_conversation : string) (s : St)
             (r : response) (w' : W),
        let sys := _load_system_prompt base_prompt recent_conversation in
        let msgs := [{| role := "user"; message_content := Text user_message |}] in
        messages_create sys msgs (outside s) = (Ok r, w') ->
        stop_reason r = "end_turn" ->
        run_agent user_message recent_conversation s
        = (Ok (Py.strip (Py.join " " (text_blocks (response_content r)))),
           Logged w' (calls s ++ [EModel sys msgs]))
        /\ (text_blocks (response_content r) = ["Hello"; "there"] ->
            run_agent user_message recent_conversation s
            = (Ok "Hello there", Logged w' (calls s ++ [EModel sys msgs])))).
Proof.
  assert (Hloop : forall (n : nat) (sys : string) (msgs : list message) (s : St)
          (r : response) (w' : W),
      messages_create sys msgs (outside s) = (Ok r, w') ->
      stop_reason r = "end_turn" ->
      loop (S n) sys msgs s
      = (Ok (Py.strip (Py.join " " (text_blocks (response_content r)))),
         Logged w' (calls s ++ [EModel sys msgs]))).
  { intros n sys msgs s r w' Hm Hs. rewrite loop_step, Hm, Hs. reflexivity. }
  split; [exact Hloop|].
  cbv zeta. intros um rc s r w' Hm Hs.
  unfold runner.run_agent, max_iterations.
  rewrite (Hloop _ _ _ _ _ _ Hm Hs). split; [reflexivity|].
  by intros ->.
Qed.

(** C2: in a turn whose response asks for tools (stop reason
    ["tool_use"]), the requested tools are dispatched one after the other
    in the order of the response and before any further model call; there
    is exactly one result per tool-use block, carrying the identifier of
    that block; and the results are appended together, as one message
    after the assistant message, to the list the next model call gets. *)
Theorem run_agent_tool_turn (n : nat) (sys : string) (msgs : list message) (s : St)
  (r : response) (w' : W) :
  messages_create sys msgs (outside s) = (Ok r, w') ->
  stop_reason r = "tool_use" ->
  let s1 := Logged w' (calls s ++ [EModel sys msgs]) in
  exists (results : list tool_result) (s2 : St) (evs : list event),
    served caps (response_content r) s1 results s2
    /\ calls s2 = calls s1 ++ evs
    /\ model_calls evs = 0
    /\ dispatched evs = (fun u => (u.1.2, u.2)) <$> tool_uses (response_content r)
    /\ length results = length (tool_uses (response_content r))
    /\ tool_use_id <$> results = (fun u => u.1.1) <$> tool_uses (response_content r)
    /\ loop (S n) sys msgs s
       = loop n sys
           (msgs ++ [ {| role := "assistant";
                         message_content := Blocks (response_content r) |};
                      {| role := "user";
                         message_content := ToolResults results |} ])
           s2.
Proof.
  intros Hm Hs s1.
  destruct (run_tools_effect (response_content r) s1)
    as (rs & s2 & evs & Hr & Hserved & Hc & Hmc & Hd & Hi).
  exists rs, s2, evs. repeat split; try done.
  - rewrite <- (length_fmap tool_use_id), Hi. by rewrite length_fmap.
  - rewrite loop_step, Hm, Hs. cbn [String.eqb Ascii.eqb Bool.eqb]. cbn zeta.
    fold s1. rewrite Hr. by rewrite <- app_assoc.
Qed.

End AgentLoop.

(** ** The agent at concrete inputs *)

Example run_always_tools :
  let '(r, s') := runner.run_agent model_always_tools stub_caps "Be kind." "hi" "" start in
  r = Ok runner.FALLBACK
  /\ runner.model_calls (calls s') = 10
  /\ length (runner.dispatched (calls s')) = 20
  /\ calls (outside s') = [].
Proof. vm_compute. repeat split. Qed.

Example run_hello :
  (runner.run_agent model_hello stub_caps "Be kind." "hi" "" start).1 = Ok "Hello there".
Proof. reflexivity. Qed.

(** The budget, for a model that always asks for tools and for one that
    stops for lack of tokens. *)
Lemma run_agent_iteration_budget_witness :
  (exists (s' : logged (logged () call) event) (evs : list event),
      runner.run_agent model_always_tools stub_caps "Be kind." "hi" "" start
      = (Ok runner.FALLBACK, s')
      /\ calls s' = calls start ++ evs
      /\ runner.model_calls evs = 10)
  /\ runner.run_agent model_max_tokens stub_caps "Be kind." "hi" "" start
     = (Ok runner.FALLBACK,
        Logged (Logged () [])
          [EModel (runner._load_system_prompt "Be kind." "")
             [{| role := "user"; message_content := Text "hi" |}]]).
Proof.
  split.
  - apply (proj1 (proj2 (run_agent_iteration_budget
                           model_always_tools stub_caps "Be kind." "hi" "" start))).
    intros sys msgs w. eexists _, _. split; reflexivity.
  - apply (proj2 (proj2 (run_agent_iteration_budget
                           model_max_tokens stub_caps "Be kind." "hi" "" start))
             _ _ eq_refl); discriminate.
Defined.

(** The final answer of a model that says "Hello" and "there". *)
Lemma run_agent_final_answer_witness :
  runner.run_agent model_hello stub_caps "Be kind." "hi" "" start
  = (Ok "Hello there",
     Logged (Logged () [])
       [EModel (runner._load_system_prompt "Be kind." "")
          [{| role := "user"; message_content := Text "hi" |}]]).
Proof.
  apply (proj2 (proj2 (run_agent_final_answer model_hello stub_caps "Be kind.")
                  "hi" "" start _ _ eq_refl eq_refl)).
  reflexivity.
Defined.

(** One turn with two tool calls, the first for an unregistered tool. *)
Lemma run_agent_tool_turn_witness :
  exists (results : list tool_result) (s2 : logged (logged () call) event)
         (evs : list event),
    runner.served stub_caps (response_content two_tools)
      (Logged (Logged () []) [EModel "sys" []]) results s2
    /\ runner.dispatched evs = [("foo", ∅); ("check_availability", shed_dates)]
    /\ tool_use_id <$> results = ["toolu_01"; "toolu_02"]
    /\ runner.loop model_always_tools stub_caps 1 "sys" [] start
       = runner.loop model_always_tools stub_caps 0 "sys"
           [ {| role := "assistant";
                message_content := Blocks (response_content two_tools) |};
             {| role := "user"; message_content := ToolResults results |} ] s2.
Proof.
  destruct (run_agent_tool_turn model_always_tools stub_caps 0 "sys" [] start
              two_tools (Logged () []) eq_refl eq_refl)
    as (results & s2 & evs & H1 & H2 & H3 & H4 & H5 & H6 & H7).
  exists results, s2, evs. repeat split; assumption.
Defined.

Example execute_tool_missing_field :
  (tools.execute_tool stub_caps "check_availability"
     (<["property_name" := Py.PStr "The Glasshouse"]> ∅) start).1
  = Ok (json.dumps [("error", Py.PStr "Tool failed: 'check_in_date'")]).
Proof. reflexivity. Qed.

Example execute_tool_unknown_property :
  (tools.execute_tool stub_caps "check_availability" shed_dates start).1
  = Ok (json.dumps
          [ ("available", Py.PBool false);
            ("message", Py.PStr "Unknown property: The Shed. Please choose from the available properties.") ]).
Proof. reflexivity. Qed.

(** A search without its query, and a search whose capability raises. *)
Lemma execute_tool_never_raises_witness :
  (exists (out : string) (s' : logged (logged () call) event),
      tools.execute_tool stub_caps "search_knowledge_base" ∅ start = (Ok out, s')
      /\ out = json.dumps [("error", Py.PStr "Tool failed: 'query'")]
      /\ s' = Logged (Logged () []) [ETool "search_knowledge_base" ∅])
  /\ (exists (out : string) (s' : logged (logged () call) event),
        tools.execute_tool failing_caps "search_knowledge_base" pool_query start
        = (Ok out, s')
        /\ out = json.dumps [("error", Py.PStr "Tool failed: connection refused")]
        /\ s' = Logged (Logged () [])
                  [ ETool "search_knowledge_base" pool_query;
                    ECapability "search_knowledge_base" [Py.PStr "pool"] ]).
Proof.
  split.
  - destruct (execute_tool_never_raises stub_caps "search_knowledge_base" ∅ start)
      as (out & s' & Hrun & Hmissing & _).
    exists out, s'. split; [exact Hrun|].
    exact (Hmissing "query" eq_refl).
  - destruct (execute_tool_never_raises failing_caps "search_knowledge_base"
                pool_query start)
      as (out & s' & Hrun & _ & Hsearch & _).
    exists out, s'. split; [exact Hrun|].
    exact (Hsearch (Py.PStr "pool") eq_refl eq_refl).
Defined.

(** The unregistered tool "foo". *)
Lemma execute_tool_unknown_tool_witness :
  ("foo" ∉ tools.REGISTERED)
  /\ exists out : string,
       tools.execute_tool stub_caps "foo" ∅ start
       = (Ok out, Logged (Logged () []) [ETool "foo" ∅])
       /\ json.loads out = Some [("error", Py.PStr "Unknown tool: foo")].
Proof.
  assert (H : "foo" ∉ tools.REGISTERED)
    by (apply (bool_decide_unpack _); vm_compute; exact I).
  split; [exact H|].
  exact (execute_tool_unknown_tool stub_caps "foo" ∅ start H).
Defined.

Example create_booking_no_email :
  (tools.execute_tool stub_caps "create_booking" booking_input start).1
  = Ok (json.dumps
          [ ("success", Py.PBool true);
            ("booking_id", Py.PStr "evt1");
            ("property", Py.PStr "The Glasshouse");
            ("guest_name", Py.PStr "Ada Lovelace");
            ("check_in", Py.PStr "2025-12-04");
            ("check_out", Py.PStr "2025-12-07");
            ("message", Py.PStr "Booking confirmed! Ada Lovelace has booked The Glasshouse from 2025-12-04 to 2025-12-07. Confirmation ID: evt1") ]).
Proof. reflexivity. Qed.

(** C9, as stated, fails: the values of a tool call are not validated, and
    with a list as property name (the other three fields present, no
    [guest_email]) the string returned is a "Tool failed" payload. *)
Lemma create_booking_list_as_property_name :
  list_booking_input !! "property_name" = Some (Py.PList [Py.PStr "The Glasshouse"])
  /\ list_booking_input !! "check_in_date" = Some (Py.PStr "2025-12-04")
  /\ list_booking_input !! "check_out_date" = Some (Py.PStr "2025-12-07")
  /\ list_booking_input !! "guest_name" = Some (Py.PStr "Ada Lovelace")
  /\ list_booking_input !! "guest_email" = None
  /\ (tools.execute_tool stub_caps "create_booking" list_booking_input start).1
     = Ok (json.dumps [("error", Py.PStr "Tool failed: unhashable type: 'list'")]).
Proof. repeat split. Qed.



(** ** The context window: append, trim, load *)

Section ContextWindow.
Import context.
Context (limit : nat).

Lemma increasing_app (l1 l2 : list row) :
  increasing (l1 ++ l2) -> increasing l1 /\ increasing l2.
Proof.
  unfold increasing. rewrite fmap_app.
  intros H. split; [by eapply StronglySorted_app_1_l|by eapply StronglySorted_app_1_r].
Qed.

(** Ordering rows that are already in increasing order changes nothing. *)
Lemma order_increasing (l : list row) :
  increasing l -> order_by_timestamp l = l.
Proof.
  induction l as [|x l IH]; [done|].
  unfold increasing. rewrite fmap_cons. intros [Hx Hl]%StronglySorted_cons.
  cbn [order_by_timestamp foldr]. fold (order_by_timestamp l). rewrite (IH Hl).
  destruct l as [|y l']; [done|].
  cbn [insert_by_timestamp]. rewrite fmap_cons in Hx.
  apply Forall_cons in Hx as [Hxy _].
  by rewrite (proj2 (Z.ltb_lt _ _) Hxy).
Qed.

Lemma filter_none {A} (P : A -> Prop) `{!forall x, Decision (P x)} (l : list A) :
  Forall (fun x => ¬ P x) l -> filter P l = [].
Proof.
  induction 1 as [|x l Hx _ IH]; [done|]. by rewrite filter_cons_False.
Qed.

Lemma filter_all {A} (P : A -> Prop) `{!forall x, Decision (P x)} (l : list A) :
  Forall P l -> filter P l = l.
Proof.
  induction 1 as [|x l Hx _ IH]; [done|]. by rewrite filter_cons_True, IH.
Qed.

(** Removing from an increasing list the rows whose timestamps are those
    of a prefix leaves the rest of the list. *)
Lemma filter_oldest_app (l1 l2 : list row) :
  increasing (l1 ++ l2) ->
  filter (fun r => timestamp r ∉ timestamp <$> l1) (l1 ++ l2) = l2.
Proof.
  intros Hinc. rewrite filter_app.
  rewrite filter_none, filter_all; [done| |].
  - apply Forall_forall. intros r Hr Hin.
    apply list_elem_of_fmap in Hin as (r' & Heq & Hr').
    unfold increasing in Hinc. rewrite fmap_app in Hinc.
    assert (timestamp r' < timestamp r)%Z as Hlt.
    { eapply (StronglySorted_app_1_elem_of _ _ _ _ _ Hinc);
        by apply list_elem_of_fmap_2. }
    lia.
  - apply Forall_forall. intros r Hr Hnot. apply Hnot.
    by apply list_elem_of_fmap_2.
Qed.

Lemma filter_oldest (l : list row) (k : nat) :
  increasing l ->
  filter (fun r => timestamp r ∉ timestamp <$> take k l) l = drop k l.
Proof.
  intros Hinc. rewrite <- (take_drop k l) in Hinc.
  pose proof (filter_oldest_app _ _ Hinc) as H.
  by rewrite take_drop in H.
Qed.

(** What the operations do to the rows of one user. *)
Lemma of_user_save (u now u' c : Z) (r x : string) (m d : option Z) (t : table) :
  of_user u (save_to_context now u' c r x m d t)
  = of_user u t ++ of_user u (omap row_of [Append now u' c r x m d]).
Proof. unfold of_user, save_to_context. by rewrite filter_app. Qed.

Lemma of_user_trim_other (u u' : Z) (t : table) :
  u' ≠ u -> of_user u (trim_context limit u' t) = of_user u t.
Proof.
  intros Hne. unfold trim_context, trim_minimal_context, of_user.
  rewrite list_filter_filter. apply list_filter_iff. intros r. cbn.
  intuition congruence.
Qed.

Lemma of_user_trim_same (u : Z) (t : table) :
  increasing (of_user u t) ->
  of_user u (trim_context limit u t)
  = drop (length (of_user u t) - limit) (of_user u t).
Proof.
  intros Hinc. unfold trim_context, trim_minimal_context.
  rewrite (order_increasing _ Hinc).
  rewrite <- (filter_oldest _ _ Hinc).
  unfold of_user. rewrite !list_filter_filter.
  apply list_filter_iff. intros r. cbn. tauto.
Qed.

Lemma appended_app (u : Z) (ops1 ops2 : list op) :
  appended u (ops1 ++ ops2) = appended u ops1 ++ appended u ops2.
Proof. unfold appended, of_user. by rewrite omap_app, filter_app. Qed.

Lemma run_snoc (ops : list op) (o : op) (t : table) :
  run limit (ops ++ [o]) t = step limit (run limit ops t) o.
Proof. unfold run. by rewrite foldl_app. Qed.

Lemma untrimmed_snoc (u : Z) (ops : list op) (o : op) :
  untrimmed u (ops ++ [o])
  = match o with
    | Append _ u' _ _ _ _ _ => if decide (u' = u) then S (untrimmed u ops) else untrimmed u ops
    | Trim u' => if decide (u' = u) then 0 else untrimmed u ops
    end.
Proof. unfold untrimmed. by rewrite foldl_app. Qed.

(** The rows of a user in the table are always the last rows appended
    for that user, and their number exceeds the limit by no more than the
    number of appends since the last trim. *)
Lemma window_rows (u : Z) (ops : list op) :
  increasing (appended u ops) ->
  (exists dropped : list row,
      appended u ops = dropped ++ of_user u (run limit ops []))
  /\ length (of_user u (run limit ops [])) <= limit + untrimmed u ops.
Proof.
  induction ops as [|o ops IH] using rev_ind; intros Hinc.
  - split; [by exists []|]. cbn. lia.
  - rewrite appended_app in Hinc.
    destruct (increasing_app _ _ Hinc) as [Hinc1 _].
    destruct (IH Hinc1) as [[dropped Hd] Hlen].
    assert (Hwin : increasing (of_user u (run limit ops []))).
    { rewrite Hd in Hinc1. by apply increasing_app in Hinc1 as [_ ?]. }
    rewrite run_snoc, appended_app, untrimmed_snoc.
    destruct o as [now u' c r x m d|u']; cbn [step].
    + rewrite of_user_save. split.
      * exists dropped. by rewrite Hd, app_assoc.
      * rewrite length_app. unfold of_user at 2. cbn.
        destruct (decide (u' = u)); cbn [length]; lia.
    + change (appended u [Trim u']) with (@nil row). rewrite app_nil_r.
      destruct (decide (u' = u)) as [->|Hne].
      * rewrite (of_user_trim_same _ _ Hwin). split.
        -- exists (dropped ++ take (length (of_user u (run limit ops [])) - limit)
                                 (of_user u (run limit ops []))).
           by rewrite <- app_assoc, take_drop.
        -- rewrite length_drop. lia.
      * rewrite (of_user_trim_other _ _ _ Hne). split; [by exists dropped|done].
Qed.


End ContextWindow.



Example load_paired_ops :
  context.entry_timestamp
  <$> context.load_context 7 (context.run config.CONTEXT_MESSAGE_LIMIT paired_ops [])
  = [3; 4; 5; 6; 7; 8; 9; 10; 11; 12]%Z.
Proof. reflexivity. Qed.

(** ** Chunking *)

Section Chunking.
Import Py ingest.

Lemma length_append (a b : string) :
  String.length (a +:+ b) = String.length a + String.length b.
Proof. induction a as [|x a IH]; simpl; [done|]. by rewrite IH. Qed.

Lemma lstrip_suffix (s : string) : exists pre : string, s = pre +:+ lstrip s.
Proof.
  induction s as [|c s [pre IH]]; [by exists ""|].
  cbn [lstrip]. destruct (isspace c).
  - exists (String c pre). simpl. by rewrite <- IH.
  - by exists "".
Qed.

Lemma rstrip_prefix (s : string) : exists post : string, s = rstrip s +:+ post.
Proof.
  induction s as [|c s [post IH]]; [by exists ""|].
  cbn [rstrip]. destruct (rstrip s) as [|a r] eqn:Hr.
  - destruct (isspace c).
    + by exists (String c s).
    + exists s. done.
  - exists post. simpl. simpl in IH. by rewrite <- IH.
Qed.

Lemma strip_is_substring (s : string) : is_substring (strip s) s.
Proof.
  unfold strip. destruct (rstrip_prefix s) as [post Hpost].
  destruct (lstrip_suffix (rstrip s)) as [pre Hpre].
  exists pre, post. rewrite <- append_assoc, <- Hpre. exact Hpost.
Qed.

Lemma is_substring_length (c s : string) :
  is_substring c s -> String.length c <= String.length s.
Proof. intros (pre & post & ->). rewrite !length_append. lia. Qed.

Lemma is_substring_trans (a b c : string) :
  is_substring a b -> is_substring b c -> is_substring a c.
Proof.
  intros (p1 & q1 & ->) (p2 & q2 & ->).
  exists (p2 +:+ p1), (q1 +:+ q2). by rewrite !append_assoc.
Qed.

Lemma lstrip_idempotent (s : string) : lstrip (lstrip s) = lstrip s.
Proof.
  induction s as [|c s IH]; [done|].
  cbn [lstrip]. destruct (isspace c) eqn:Hc; [done|].
  cbn [lstrip]. by rewrite Hc.
Qed.

Lemma rstrip_idempotent (s : string) : rstrip (rstrip s) = rstrip s.
Proof.
  induction s as [|c s IH]; [done|].
  cbn [rstrip]. destruct (rstrip s) as [|a r] eqn:Hr.
  - destruct (isspace c) eqn:Hc; [done|]. cbn [rstrip]. by rewrite Hc.
  - cbn [rstrip]. cbn [rstrip] in IH. by rewrite IH.
Qed.

Lemma rstrip_lstrip (t : string) : rstrip t = t -> rstrip (lstrip t) = lstrip t.
Proof.
  induction t as [|c t IH]; [done|].
  intros Ht. cbn [lstrip]. destruct (isspace c) eqn:Hc; [|done].
  apply IH. cbn [rstrip] in Ht. destruct (rstrip t) as [|a r]; [|congruence].
  by rewrite Hc in Ht.
Qed.

(** A stripped string has no whitespace left at either end. *)
Lemma strip_idempotent (s : string) : strip (strip s) = strip s.
Proof.
  unfold strip.
  rewrite (rstrip_lstrip (rstrip s)) by apply rstrip_idempotent.
  apply lstrip_idempotent.
Qed.

Lemma substring_prefix (b : nat) (s : string) :
  exists post : string, s = String.substring 0 b s +:+ post.
Proof.
  revert b. induction s as [|c s IH]; intros b.
  - exists "". by destruct b.
  - destruct b as [|b]; [by exists (String c s)|].
    destruct (IH b) as [post Hs]. exists post. cbn [String.substring]. simpl.
    by rewrite <- Hs.
Qed.

Lemma substring_is_substring (a b : nat) (s : string) :
  is_substring (String.substring a b s) s.
Proof.
  revert s. induction a as [|a IH]; intros s.
  - destruct (substring_prefix b s) as [post Hs]. by exists "", post.
  - destruct s as [|c s]; [by exists "", ""|].
    destruct (IH s) as (pre & post & Hs).
    exists (String c pre), post. cbn [String.substring]. simpl. by rewrite <- Hs.
Qed.

Lemma substring_length_le (a b : nat) (s : string) :
  String.length (String.substring a b s) <= b.
Proof.
  revert a b. induction s as [|c s IH]; intros a b.
  - destruct a, b; cbn; lia.
  - destruct a as [|a].
    + destruct b as [|b]; [cbn; lia|]. cbn [String.substring String.length].
      specialize (IH 0 b). lia.
    + cbn [String.substring]. apply IH.
Qed.

Lemma slice_is_substring (text : string) (start stop : Z) :
  is_substring (slice text start stop) text.
Proof.
  unfold slice. destruct (_ <? _)%Z.
  - apply substring_is_substring.
  - by exists "", text.
Qed.

Lemma slice_length (text : string) (start size : Z) :
  (0 <= start)%Z -> (0 <= size)%Z ->
  (len (slice text start (start + size)) <= size)%Z.
Proof.
  intros Hstart Hsize. unfold slice, len.
  destruct (_ <? _)%Z eqn:Hlt; [|cbn; lia].
  apply Z.ltb_lt in Hlt.
  pose proof (substring_length_le
                (Z.to_nat (clamp start (Z.of_nat (String.length text))))
                (Z.to_nat (clamp (start + size) (Z.of_nat (String.length text))
                           - clamp start (Z.of_nat (String.length text))))
                text) as Hle.
  revert Hlt Hle. unfold clamp.
  repeat match goal with |- context [(?a <? ?b)%Z] => destruct (Z.ltb_spec a b) end; lia.
Qed.

(** The loop, started at offset [j * step] with [n] windows still below
    the end of the text, appends these [n] windows and stops. *)
Lemma chunk_loop_windows (text : string) (chunk_size overlap : Z)
  (n j fuel : nat) (acc : list string) :
  let step := (chunk_size - overlap)%Z in
  (0 < step)%Z ->
  (forall k, j <= k < j + n -> (Z.of_nat k * step < len text)%Z) ->
  (len text <= Z.of_nat (j + n) * step)%Z ->
  n < fuel ->
  chunk_loop fuel text chunk_size overlap (Z.of_nat j * step) acc
  = Some (acc ++ ((fun k => slice text (Z.of_nat k * step) (Z.of_nat k * step + chunk_size))
                  <$> seq j n)).
Proof.
  intros step Hstep. revert j fuel acc.
  induction n as [|n IH]; intros j fuel acc Hbelow Hend Hfuel.
  - destruct fuel as [|fuel]; [lia|]. cbn [chunk_loop].
    rewrite (proj2 (Z.ltb_ge _ _)) by (rewrite Nat.add_0_r in Hend; lia).
    by rewrite app_nil_r.
  - destruct fuel as [|fuel]; [lia|]. cbn [chunk_loop].
    rewrite (proj2 (Z.ltb_lt _ _)) by (apply Hbelow; lia).
    fold step.
    replace (Z.of_nat j * step + step)%Z with (Z.of_nat (S j) * step)%Z by lia.
    rewrite IH.
    + cbn [seq fmap list_fmap]. by rewrite <- app_assoc.
    + intros k Hk. apply Hbelow. lia.
    + by replace (S j + n) with (j + S n) by lia.
    + lia.
Qed.

Lemma window_count (n step : Z) :
  (0 <= n)%Z -> (0 < step)%Z ->
  let m := ((n + step - 1) / step)%Z in
  (0 <= m)%Z /\ (n <= m * step)%Z /\ (forall k, (0 <= k < m)%Z -> (k * step < n)%Z).
Proof.
  intros Hn Hstep m.
  pose proof (Z.mul_div_le (n + step - 1) step Hstep) as Hle.
  pose proof (Z.mul_succ_div_gt (n + step - 1) step Hstep) as Hgt.
  fold m in Hle, Hgt.
  assert (0 <= m)%Z by (apply Z.div_pos; lia).
  repeat split; [done|nia|]. intros k Hk. nia.
Qed.

(** C10, as stated, fails: the chunks returned are stripped and the
    all-whitespace ones are dropped, so they are not the substrings found
    at offsets that increase by [chunk_size - overlap].  For the text
    "a  b" with [chunk_size = 2] and [overlap = 1] the chunks are "a", "b"
    and "b". *)
Lemma chunk_text_not_at_regular_offsets :
  chunk_text 5 "a  b" 2 1 = Some ["a"; "b"; "b"]
  /\ ¬ at_regular_offsets "a  b" (2 - 1) ["a"; "b"; "b"].
Proof.
  split; [reflexivity|].
  intros [first H].
  pose proof (H 0 "a" eq_refl) as H0. pose proof (H 1 "b" eq_refl) as H1.
  destruct first as [|[|[|[|[|first]]]]]; cbn in H0, H1; discriminate.
Qed.

(** C10 (amended): for [0 < overlap < chunk_size], [chunk_text]
    terminates (every amount of fuel above the number of windows gives the
    same result); the chunks it returns are the windows of [chunk_size]
    characters taken at the offsets [0], [step], [2 * step], ... with
    [step = chunk_size - overlap], each stripped of surrounding whitespace,
    in that order and without the windows that hold whitespace only; so
    every chunk is a non-empty substring of the input with no whitespace
    at either end and of length at most [chunk_size]. *)
Theorem chunk_text_windows (text : string) (chunk_size overlap : Z) :
  (0 < overlap < chunk_size)%Z ->
  exists fuel : nat,
    (forall fuel' : nat,
        fuel <= fuel' ->
        chunk_text fuel' text chunk_size overlap
        = Some (stripped (windows text chunk_size overlap)))
    /\ Forall (fun c => c ≠ "" /\ strip c = c /\ (len c <= chunk_size)%Z
                        /\ is_substring c text)
         (stripped (windows text chunk_size overlap)).
Proof.
  intros Hparams.
  set (step := (chunk_size - overlap)%Z).
  assert (Hstep : (0 < step)%Z) by (unfold step; lia).
  destruct (window_count (len text) step) as (Hm & Hend & Hbelow);
    [unfold len; lia|done|].
  set (m := Z.to_nat ((len text + step - 1) / step)).
  exists (S m). split.
  - intros fuel' Hfuel. unfold chunk_text, windows. fold step m.
    pose proof (chunk_loop_windows text chunk_size overlap m 0 fuel' []) as Hloop.
    cbv zeta in Hloop. fold step in Hloop. rewrite Z.mul_0_l in Hloop.
    rewrite Hloop; [done|done| | |lia].
    + intros k Hk. apply Hbelow. unfold m in Hk. lia.
    + unfold m. cbn [Nat.add]. rewrite Z2Nat.id by done. exact Hend.
  - apply Forall_forall. intros c Hc.
    apply list_elem_of_omap in Hc as (w & Hw & Hstrip).
    destruct (truthy (strip w)) eqn:Htruthy; [|done].
    injection Hstrip as <-.
    apply list_elem_of_fmap in Hw as (k & Hw & _). fold step in Hw.
    assert (Hsub : is_substring (strip w) w) by apply strip_is_substring.
    split; [intros Hempty; by rewrite Hempty in Htruthy|].
    split; [apply strip_idempotent|].
    split.
    + pose proof (is_substring_length _ _ Hsub).
      pose proof (slice_length text (Z.of_nat k * step) chunk_size) as Hlen.
      rewrite <- Hw in Hlen. unfold len in *. nia.
    + eapply is_substring_trans; [exact Hsub|]. rewrite Hw. apply slice_is_substring.
Qed.

End Chunking.

Example chunk_text_defaults :
  ingest.chunk_text 3 "Check-in is from 3pm.   " ingest.CHUNK_SIZE ingest.CHUNK_OVERLAP
  = Some ["Check-in is from 3pm."].
Proof. reflexivity. Qed.

(** The default chunk size and overlap. *)
Lemma chunk_text_windows_witness :
  (0 < ingest.CHUNK_OVERLAP < ingest.CHUNK_SIZE)%Z
  /\ exists fuel : nat,
       (forall fuel' : nat,
           fuel <= fuel' ->
           ingest.chunk_text fuel' "Check-in is from 3pm.   "
             ingest.CHUNK_SIZE ingest.CHUNK_OVERLAP
           = Some (ingest.stripped
                     (ingest.windows "Check-in is from 3pm.   "
                        ingest.CHUNK_SIZE ingest.CHUNK_OVERLAP)))
       /\ Forall (fun c => c ≠ "" /\ Py.strip c = c
                           /\ (Py.len c <= ingest.CHUNK_SIZE)%Z
                           /\ Py.is_substring c "Check-in is from 3pm.   ")
            (ingest.stripped
               (ingest.windows "Check-in is from 3pm.   "
                  ingest.CHUNK_SIZE ingest.CHUNK_OVERLAP)).
Proof.
  assert (H : (0 < ingest.CHUNK_OVERLAP < ingest.CHUNK_SIZE)%Z)
    by (unfold ingest.CHUNK_OVERLAP, ingest.CHUNK_SIZE; lia).
  split; [exact H|].
  exact (chunk_text_windows "Check-in is from 3pm.   "
           ingest.CHUNK_SIZE ingest.CHUNK_OVERLAP H).
Defined.

(** ** JSON: the general round trip *)

Section JsonObjects.
Import Py json.

Lemma setitem_fresh (d : dict) (k : string) (v : value) :
  k ∉ d.*1 -> setitem d k v = d ++ [(k, v)].
Proof.
  induction d as [|[k' v'] d IH]; [done|].
  rewrite fmap_cons, not_elem_of_cons. cbn [fst]. intros [Hne Hnot].
  cbn [setitem]. rewrite (proj2 (String.eqb_neq k' k)) by congruence.
  cbn [app]. by rewrite IH.
Qed.

Lemma setitem_all_fresh (acc d : dict) :
  NoDup (acc ++ d).*1 ->
  foldl (fun a kv => setitem a kv.1 kv.2) acc d = acc ++ d.
Proof.
  revert acc. induction d as [|[k v] d IH]; intros acc Hnd.
  - by rewrite app_nil_r.
  - cbn [foldl fst snd]. rewrite setitem_fresh.
    + rewrite IH; rewrite <- app_assoc; [done|exact Hnd].
    + rewrite fmap_app, fmap_cons in Hnd. apply NoDup_app in Hnd as (_ & Hdisj & _).
      intros Hin. apply (Hdisj _ Hin). cbn [fst]. apply list_elem_of_here.
Qed.

Lemma encode_str_shape (s rest : string) :
  encode_str s +:+ rest = String dquote (escape s +:+ String dquote rest).
Proof. unfold encode_str. simpl. by rewrite append_assoc. Qed.

Lemma scan_atom_encode (v : value) (rest : string) :
  scalar v = true ->
  scan_atom (encode_value v +:+ rest) = Some (v, rest).
Proof.
  intros Hv. destruct v as [|[]| | |s| |]; try discriminate Hv; try reflexivity.
  cbn [encode_value]. rewrite encode_str_shape. cbn [scan_atom].
  simpl. by rewrite scanstring_escape.
Qed.

Lemma skip_ws_encode_atom (v : value) (rest : string) :
  scalar v = true ->
  skip_ws (encode_value v +:+ rest) = encode_value v +:+ rest.
Proof. intros Hv. by destruct v as [|[]| | |s| |]. Qed.

(** One member, followed by [rest], in the shape the scanner walks. *)
Lemma encode_item_shape (k : string) (v : value) (rest : string) :
  encode_item (k, v) +:+ rest
  = String dquote (escape k +:+ String dquote (String ":" (String " "
      (encode_value v +:+ rest)))).
Proof.
  unfold encode_item. cbn [fst snd].
  rewrite !append_assoc, encode_str_shape. reflexivity.
Qed.

Lemma scan_member_last (k : string) (v : value) (acc : dict) (fuel : nat) :
  scalar v = true ->
  scan_members (S fuel) acc (encode_item (k, v) +:+ "}") = Some (setitem acc k v, "").
Proof.
  intros Hv. rewrite encode_item_shape. cbn [scan_members]. simpl.
  rewrite scanstring_escape. simpl.
  rewrite skip_ws_encode_atom, scan_atom_encode by done. reflexivity.
Qed.

Lemma scan_member_more (k : string) (v : value) (acc : dict) (fuel : nat) (r : string) :
  scalar v = true ->
  scan_members (S fuel) acc (encode_item (k, v) +:+ ", " +:+ String dquote r)
  = scan_members fuel (setitem acc k v) (String dquote r).
Proof.
  intros Hv. rewrite encode_item_shape. cbn [scan_members]. simpl.
  rewrite scanstring_escape. simpl.
  rewrite skip_ws_encode_atom, scan_atom_encode by done. reflexivity.
Qed.

Lemma join_two (sep x y : string) (l : list string) :
  join sep (x :: y :: l) = x +:+ sep +:+ join sep (y :: l).
Proof. reflexivity. Qed.

(** The members of a non-empty object start with a quote. *)
Lemma join_items_head (kv : string * value) (d : dict) (rest : string) :
  exists r : string,
    join ", " (encode_item <$> kv :: d) +:+ rest = String dquote r.
Proof.
  destruct kv as [k v]. rewrite fmap_cons. destruct d as [|kv' d].
  - cbn [fmap list_fmap join]. rewrite encode_item_shape. by eexists.
  - rewrite fmap_cons, join_two, !append_assoc, encode_item_shape. by eexists.
Qed.

Lemma scan_members_items (d : dict) (kv : string * value) (acc : dict) (fuel : nat) :
  length (kv :: d) <= fuel ->
  Forall (fun kv => scalar kv.2 = true) (kv :: d) ->
  scan_members fuel acc (join ", " (encode_item <$> kv :: d) +:+ "}")
  = Some (foldl (fun a kv => setitem a kv.1 kv.2) acc (kv :: d), "").
Proof.
  revert kv acc fuel. induction d as [|kv' d IH]; intros [k v] acc fuel Hfuel Hsc.
  - destruct fuel as [|fuel]; [cbn in Hfuel; lia|].
    apply Forall_cons in Hsc as [Hv _].
    cbn [fmap list_fmap join]. by rewrite scan_member_last.
  - destruct fuel as [|fuel]; [cbn in Hfuel; lia|].
    apply Forall_cons in Hsc as [Hv Hsc].
    rewrite fmap_cons, fmap_cons, join_two, <- fmap_cons, !append_assoc.
    destruct (join_items_head kv' d "}") as [r Hr]. rewrite Hr.
    rewrite scan_member_more, <- Hr by done.
    rewrite IH by (done || (cbn in Hfuel |- *; lia)). reflexivity.
Qed.

Lemma length_join_items (d : dict) :
  length d <= String.length (join ", " (encode_item <$> d)).
Proof.
  induction d as [|[k v] d IH]; [cbn; lia|].
  destruct d as [|kv' d].
  - cbn [fmap list_fmap join]. rewrite <- (append_empty_r (encode_item (k, v))).
    rewrite encode_item_shape. cbn; lia.
  - rewrite fmap_cons, fmap_cons, join_two, <- fmap_cons.
    rewrite !length_append. cbn [String.length length] in *. lia.
Qed.

Lemma loads_object (r : string) :
  loads ("{" +:+ String dquote r)
  = match scan_members (String.length ("{" +:+ String dquote r)) [] (String dquote r) with
    | Some (d, r') => match skip_ws r' with EmptyString => Some d | _ => None end
    | None => None
    end.
Proof. reflexivity. Qed.


End JsonObjects.


(** ** The calendar operations: what they call and what they report *)

Section CalendarCalls.
Context {X : Type} (svc : Services X).

Ltac service_cases :=
  repeat match goal with
    | |- context [get_service svc ?x] =>
        destruct (get_service svc x) as [[[]|?] ?] eqn:?
    | |- context [events_list svc ?a ?b ?c ?d ?e ?x] =>
        destruct (events_list svc a b c d e x) as [[[|? ?]|?] ?] eqn:?
    | |- context [events_insert svc ?a ?b ?x] =>
        destruct (events_insert svc a b x) as [[?|?] ?] eqn:?
    | |- context [events_delete svc ?a ?b ?x] =>
        destruct (events_delete svc a b x) as [[[]|?] ?] eqn:?
    | |- context [cal.day_after svc ?d] =>
        destruct (cal.day_after svc d) as [?|?] eqn:?
    end.




End CalendarCalls.

(** ** The knowledge-base search *)

Section KnowledgeBase.
Context {X : Type} (svc : Services X).

(** X5: [search_knowledge_base] never raises.  It embeds the query once and
    queries the store at most once, and only after the embedding came
    back.  Any failure on the way gives the fixed "Unable to search"
    sentence, an empty result the "No relevant information" sentence;
    otherwise the answer is made of the non-empty contents of the rows, in
    order, with the separator between them. *)
Theorem search_knowledge_base_outcome (query : Py.value) (match_count : Z)
  (s : logged X call) :
  exists (out : string) (s' : logged X call) (evs : list call),
    rag.search_knowledge_base svc query match_count s = (Ok out, s')
    /\ calls s' = calls s ++ evs
    /\ (evs = [CEmbeddingsCreate config.EMBEDDING_MODEL query]
        \/ evs = [CEmbeddingsCreate config.EMBEDDING_MODEL query;
                  CMatchDocuments match_count])
    /\ (out = "Unable to search the knowledge base right now."
        \/ exists (v : embedding svc) (vs : list (embedding svc)) (x1 x2 : X)
                  (rows : list (option string)),
             embeddings_create svc config.EMBEDDING_MODEL query (outside s)
             = (Ok (v :: vs), x1)
             /\ rpc_match_documents svc v match_count x1 = (Ok rows, x2)
             /\ outside s' = x2
             /\ (rows = [] ->
                 out = "No relevant information found in the knowledge base.")
             /\ (rows ≠ [] -> out = Py.join rag.separator (rag.contents rows))
             /\ Forall (fun c => c ≠ "" /\ Some c ∈ rows) (rag.contents rows)).
Proof.
  unfold rag.search_knowledge_base. eff.
  destruct (embeddings_create svc config.EMBEDDING_MODEL query (outside s))
    as [[[|v vs]|e] x1] eqn:Hemb; cbn [outside calls].
  1,3: eexists _, _, _; split; [reflexivity|]; split; [reflexivity|];
       split; [by left|by left].
  destruct (rpc_match_documents svc v match_count x1) as [[rows|e] x2] eqn:Hrows.
  2:{ eexists _, _, _. split; [reflexivity|]. rewrite <- app_assoc.
      split; [reflexivity|]. split; [by right|by left]. }
  exists (match rows with
          | [] => "No relevant information found in the knowledge base."
          | _ => Py.join rag.separator (rag.contents rows)
          end).
  eexists _, _. split; [by destruct rows|]. rewrite <- app_assoc.
  split; [by destruct rows|]. split; [by right|]. right.
  exists v, vs, x1, x2, rows. split; [done|]. split; [done|].
  split; [by destruct rows|]. split; [by intros ->|].
  split; [by destruct rows|].
  apply Forall_forall. intros c Hc. unfold rag.contents in Hc.
  apply list_elem_of_omap in Hc as ([r|] & Hin & Hr); [|done].
  destruct r as [|a r]; [done|]. cbn in Hr. by simplify_eq.
Qed.

End KnowledgeBase.

(** ** The agent loop: failures and the message list *)

Section AgentFailures.
Import runner.
Context {W : Type}.
Context (messages_create : string -> list message -> W -> outcome response * W).
Context (caps : Capabilities W).
Context (base_prompt : string).

#[local] Abbreviation St := (logged W event).
#[local] Abbreviation loop := (runner.loop messages_create caps).
#[local] Abbreviation run_agent := (runner.run_agent messages_create caps base_prompt).

Lemma loop_raises_from_model (n : nat) (sys : string) (msgs : list message) (s s' : St)
  (e : Py.exn) :
  loop n sys msgs s = (Raise e, s') ->
  exists (msgs' : list message) (w w' : W) (evs : list event),
    messages_create sys msgs' w = (Raise e, w')
    /\ s' = Logged w' (calls s ++ evs ++ [EModel sys msgs']).
Proof.
  revert msgs s. induction n as [|n IH]; intros msgs s Hrun; [discriminate|].
  rewrite loop_step in Hrun.
  destruct (messages_create sys msgs (outside s)) as [[r|e0] w1] eqn:Hm.
  2:{ injection Hrun as <- <-. by exists msgs, (outside s), w1, []. }
  cbn zeta in Hrun.
  destruct (String.eqb (stop_reason r) "end_turn"); [discriminate|].
  destruct (String.eqb (stop_reason r) "tool_use"); [|discriminate].
  destruct (run_tools_effect caps (response_content r)
              (Logged w1 (calls s ++ [EModel sys msgs])))
    as (rs & s2 & evs2 & Hr & _ & Hc2 & _).
  rewrite Hr in Hrun. cbn [calls] in Hc2.
  destruct (IH _ _ Hrun) as (msgs' & w & w' & evs & Hraise & ->).
  exists msgs', w, w', ([EModel sys msgs] ++ evs2 ++ evs).
  split; [done|]. rewrite Hc2. by rewrite <- !app_assoc.
Qed.


Lemma model_inputs_app (l1 l2 : list event) :
  model_inputs (l1 ++ l2) = model_inputs l1 ++ model_inputs l2.
Proof. apply omap_app. Qed.

Lemma model_inputs_none (evs : list event) :
  model_calls evs = 0 -> model_inputs evs = [].
Proof.
  induction evs as [|[sys m|n i|n a] evs IH]; [done|discriminate|..];
    intros H; apply IH; exact H.
Qed.

Lemma loop_model_inputs (n : nat) (sys : string) (msgs : list message) (s : St) :
  exists (r : outcome string) (s' : St) (evs : list event),
    loop n sys msgs s = (r, s')
    /\ calls s' = calls s ++ evs
    /\ forall (i : nat) (sys' : string) (msgs' : list message),
         model_inputs evs !! i = Some (sys', msgs') ->
         sys' = sys
         /\ (role <$> msgs') = (role <$> msgs) ++ turns i
         /\ take (length msgs) msgs' = msgs.
Proof.
  revert msgs s. induction n as [|n IH]; intros msgs s.
  - exists (Ok FALLBACK), s, []. rewrite app_nil_r. repeat split; done.
  - rewrite loop_step.
    assert (Hfirst : forall (i : nat) (sys' : string) (msgs' : list message),
               model_inputs [EModel sys msgs] !! i = Some (sys', msgs') ->
               sys' = sys /\ (role <$> msgs') = (role <$> msgs) ++ turns i
               /\ take (length msgs) msgs' = msgs).
    { intros [|i] sys' msgs' Hi; [|done]. injection Hi as <- <-.
      cbn [turns]. by rewrite app_nil_r, firstn_all. }
    destruct (messages_create sys msgs (outside s)) as [[r|e] w'].
    2:{ by eexists _, _, [_]. }
    cbn zeta.
    destruct (String.eqb (stop_reason r) "end_turn"); [by eexists _, _, [_]|].
    destruct (String.eqb (stop_reason r) "tool_use"); [|by eexists _, _, [_]].
    destruct (run_tools_effect caps (response_content r)
                (Logged w' (calls s ++ [EModel sys msgs])))
      as (rs & s2 & evs2 & Hr & _ & Hc2 & Hm2 & _).
    rewrite Hr. cbn [calls] in Hc2.
    match goal with
    | |- context [runner.loop _ _ n sys ?m s2] =>
        destruct (IH m s2) as (r3 & s3 & evs3 & Hl & Hc3 & Hin3)
    end.
    exists r3, s3, ([EModel sys msgs] ++ evs2 ++ evs3).
    split; [exact Hl|]. split; [rewrite Hc3, Hc2; by rewrite <- !app_assoc|].
    intros i sys' msgs'. rewrite !model_inputs_app, (model_inputs_none _ Hm2).
    cbn [app model_inputs omap list_omap]. destruct i as [|i].
    + intros Hi. injection Hi as <- <-.
      cbn [turns]. by rewrite app_nil_r, firstn_all.
    + cbn [lookup list_lookup]. intros Hi.
      destruct (Hin3 i sys' msgs' Hi) as (Hs & Hroles & Htake).
      split; [done|]. split.
      * rewrite Hroles, !fmap_app. cbn [fmap list_fmap role turns].
        by rewrite <- !app_assoc.
      * apply (f_equal (take (length msgs))) in Htake.
        rewrite take_take in Htake.
        rewrite Nat.min_l in Htake by (rewrite !length_app; cbn [length]; lia).
        rewrite Htake, <- app_assoc. apply take_app_length.
Qed.

(** X7: every model call of one run gets the same system prompt, the one
    that carries the recent conversation, and a message list that starts
    with the user's message and only grows: the call number [i] (from 0)
    gets [2 * i + 1] messages whose roles alternate, user first and user
    last. *)
Theorem run_agent_message_lists (user_message recent_conversation : string) (s : St) :
  exists (r : outcome string) (s' : St) (evs : list event),
    run_agent user_message recent_conversation s = (r, s')
    /\ calls s' = calls s ++ evs
    /\ forall (i : nat) (sys : string) (msgs : list message),
         model_inputs evs !! i = Some (sys, msgs) ->
         sys = _load_system_prompt base_prompt recent_conversation
         /\ (role <$> msgs) = "user" :: turns i
         /\ head msgs = Some {| role := "user"; message_content := Text user_message |}
         /\ length msgs = 2 * i + 1.
Proof.
  unfold runner.run_agent, max_iterations.
  destruct (loop_model_inputs 10 (_load_system_prompt base_prompt recent_conversation)
              [{| role := "user"; message_content := Text user_message |}] s)
    as (r & s' & evs & Hl & Hc & Hin).
  exists r, s', evs. split; [done|]. split; [done|].
  intros i sys msgs Hi. destruct (Hin i sys msgs Hi) as (Hs & Hroles & Htake).
  cbn [fmap list_fmap role app length] in Hroles, Htake.
  split; [done|]. split; [done|]. split.
  - destruct msgs as [|m msgs]; [done|]. cbn in Htake. by injection Htake as ->.
  - rewrite <- (length_fmap role), Hroles. cbn [length]. clear.
    induction i as [|i IH]; cbn [turns length] in *; lia.
Qed.

End AgentFailures.

(** ** The dispatcher: arguments it does not look at *)

Section DispatcherFrame.
Import tools.
Context {W : Type} (caps : Capabilities W).

(** X8: the dispatcher looks only at the fields of its tool: an argument
    under any other key changes neither the string returned nor what
    happens to the world (unknown or misspelt fields are silently
    ignored, not rejected). *)
Theorem execute_tool_ignores_other_arguments (tool_name : string)
  (tool_input : gmap string Py.value) (key : string) (v : Py.value)
  (s : logged W event) :
  key ∉ reads tool_name ->
  (execute_tool caps tool_name (<[key := v]> tool_input) s).1
  = (execute_tool caps tool_name tool_input s).1
  /\ outside (execute_tool caps tool_name (<[key := v]> tool_input) s).2
     = outside (execute_tool caps tool_name tool_input s).2.
Proof.
  unfold reads, subscripted, execute_tool, dispatch, getitem, get.
  intros Hkey.
  repeat match goal with
         | H : context [String.eqb tool_name ?x] |- _ =>
             destruct (String.eqb tool_name x)
         end.
  all: cbn [app] in Hkey.
  all: repeat (apply not_elem_of_cons in Hkey as [? Hkey]).
  all: rewrite ?lookup_insert_ne by done.
  all: destruct s as [w0 c0]; eff; cbv beta iota delta [outside calls].
  all: repeat case_match; cbn [fst snd] in *; split; congruence.
Qed.

End DispatcherFrame.

(** An argument the model made up. *)
Lemma execute_tool_ignores_other_arguments_witness :
  (tools.execute_tool stub_caps "check_availability"
     (<["number_of_guests" := Py.PInt 2]> shed_dates) start).1
  = (tools.execute_tool stub_caps "check_availability" shed_dates start).1.
Proof.
  apply (execute_tool_ignores_other_arguments stub_caps).
  apply (bool_decide_unpack _). vm_compute. exact I.
Defined.

(** ** The context window: what [load_context] returns *)

Section LoadContext.
Import context.

Lemma insert_by_timestamp_perm (r : row) (l : list row) :
  insert_by_timestamp r l ≡ₚ r :: l.
Proof.
  induction l as [|x l IH]; [done|].
  cbn [insert_by_timestamp]. destruct (_ <? _)%Z; [done|].
  rewrite IH. apply Permutation_swap.
Qed.

Lemma order_by_timestamp_perm (l : list row) : order_by_timestamp l ≡ₚ l.
Proof.
  induction l as [|x l IH]; [done|].
  cbn [order_by_timestamp foldr]. fold (order_by_timestamp l).
  by rewrite insert_by_timestamp_perm, IH.
Qed.

Lemma insert_by_timestamp_sorted (r : row) (l : list row) :
  StronglySorted Z.le (timestamp <$> l) ->
  StronglySorted Z.le (timestamp <$> insert_by_timestamp r l).
Proof.
  induction l as [|x l IH]; intros Hl.
  - cbn. repeat constructor.
  - cbn [insert_by_timestamp]. rewrite fmap_cons in Hl.
    apply StronglySorted_cons in Hl as [Hx Hl].
    destruct (Z.ltb_spec (timestamp r) (timestamp x)) as [Hlt|Hge].
    + rewrite !fmap_cons. apply StronglySorted_cons. split.
      * apply Forall_cons. split; [lia|].
        eapply Forall_impl; [exact Hx|]. cbn. intros; lia.
      * apply StronglySorted_cons. by split.
    + rewrite fmap_cons. apply StronglySorted_cons. split; [|by apply IH].
      rewrite insert_by_timestamp_perm, fmap_cons. apply Forall_cons. by split.
Qed.

Lemma insert_by_timestamp_last (x r : row) (l : list row) :
  (timestamp x < timestamp r)%Z ->
  insert_by_timestamp x (l ++ [r]) = insert_by_timestamp x l ++ [r].
Proof.
  intros Hlt. induction l as [|y l IH].
  - cbn. by rewrite (proj2 (Z.ltb_lt _ _) Hlt).
  - cbn [app insert_by_timestamp]. destruct (_ <? _)%Z; [done|]. by rewrite IH.
Qed.

Lemma order_by_timestamp_last (l : list row) (r : row) :
  Forall (fun x => timestamp x < timestamp r)%Z l ->
  order_by_timestamp (l ++ [r]) = order_by_timestamp l ++ [r].
Proof.
  induction 1 as [|x l Hx _ IH]; [done|].
  cbn [app order_by_timestamp foldr]. fold (order_by_timestamp (l ++ [r])).
  fold (order_by_timestamp l). rewrite IH. by apply insert_by_timestamp_last.
Qed.

(** X9: whatever the order of the rows in the table, [load_context]
    returns exactly the entries of the rows of that user, each once, in
    non-decreasing order of timestamp. *)
Theorem load_context_sorted_rows_of_user (u : Z) (t : table) :
  load_context u t ≡ₚ project <$> filter (fun r => user_id r = u) t
  /\ StronglySorted Z.le (entry_timestamp <$> load_context u t).
Proof.
  unfold load_context. split.
  - by rewrite order_by_timestamp_perm.
  - rewrite <- list_fmap_compose.
    change (entry_timestamp ∘ project) with timestamp.
    unfold order_by_timestamp. induction (of_user u t) as [|x l IH]; [constructor|].
    cbn [foldr]. by apply insert_by_timestamp_sorted.
Qed.

(** X10: a message saved with a clock reading later than every entry of
    its user comes out of [load_context] as the last entry of that user,
    after the entries that were there, which are unchanged; the windows of
    the other users do not change at all. *)
Theorem save_to_context_then_load
  (now user_id chat_id : Z) (role text : string) (message_id update_id : option Z)
  (t : table) :
  Forall (fun e => entry_timestamp e < now)%Z (load_context user_id t) ->
  load_context user_id
    (save_to_context now user_id chat_id role text message_id update_id t)
  = load_context user_id t
    ++ [{| entry_role := role; entry_text := text; entry_timestamp := now |}]
  /\ forall other : Z,
       other ≠ user_id ->
       load_context other
         (save_to_context now user_id chat_id role text message_id update_id t)
       = load_context other t.
Proof.
  intros Hnow. unfold load_context, save_to_context, of_user. split.
  - rewrite filter_app, filter_cons_True, filter_nil by done.
    rewrite order_by_timestamp_last; [by rewrite fmap_app|].
    unfold load_context in Hnow.
    rewrite order_by_timestamp_perm in Hnow.
    apply Forall_fmap in Hnow. exact Hnow.
  - intros other Hne. rewrite filter_app, filter_cons_False, filter_nil by (cbn; congruence).
    by rewrite app_nil_r.
Qed.

End LoadContext.

(** A second message of user 7, with a row of user 8 in between. *)
Lemma save_to_context_then_load_witness :
  context.load_context 7
    (context.save_to_context 30 7 7 "assistant" "Hi!" None None
       (context.save_to_context 20 8 8 "user" "other" None None
          (context.save_to_context 10 7 7 "user" "hello" None None [])))
  = [ {| context.entry_role := "user"; context.entry_text := "hello";
         context.entry_timestamp := 10 |};
      {| context.entry_role := "assistant"; context.entry_text := "Hi!";
         context.entry_timestamp := 30 |} ].
Proof.
  refine (proj1 (save_to_context_then_load 30 7 7 "assistant" "Hi!" None None _ _)).
  repeat constructor.
Defined.

(** ** Chunking: bad parameters, and what the windows cover *)

Section ChunkingEdges.
Import Py ingest.

Lemma chunk_loop_never_ends (fuel : nat) (text : string) (chunk_size overlap start : Z)
  (chunks : list string) :
  (chunk_size <= overlap)%Z -> (start <= 0)%Z -> (0 < len text)%Z ->
  chunk_loop fuel text chunk_size overlap start chunks = None.
Proof.
  intros Hstep. revert start chunks.
  induction fuel as [|fuel IH]; intros start chunks Hstart Hlen; [done|].
  cbn [chunk_loop]. rewrite (proj2 (Z.ltb_lt _ _)) by lia.
  apply IH; lia.
Qed.

(** X11: with an overlap that is not smaller than the chunk size,
    [chunk_text] never returns on a non-empty text: the start offset never
    moves forward, so no amount of fuel lets the loop end.  On the empty
    text it returns no chunk at once, whatever the parameters. *)
Theorem chunk_text_diverges_on_large_overlap (text : string) (chunk_size overlap : Z) :
  (chunk_size <= overlap)%Z ->
  (text ≠ "" -> forall fuel : nat, chunk_text fuel text chunk_size overlap = None)
  /\ (text = "" -> forall fuel : nat, chunk_text (S fuel) text chunk_size overlap = Some []).
Proof.
  intros Hstep. split.
  - intros Htext fuel. unfold chunk_text.
    rewrite chunk_loop_never_ends; [done|done|done|].
    destruct text; [done|]. unfold len. cbn [String.length]. lia.
  - by intros -> fuel.
Qed.

Lemma slice_get (text : string) (start size : Z) (p : nat) :
  (0 <= start)%Z -> (start <= Z.of_nat p < start + size)%Z ->
  p < String.length text ->
  String.get (p - Z.to_nat start) (slice text start (start + size)) = String.get p text.
Proof.
  intros Hstart Hp Hlen.
  assert (Hlo : clamp start (len text) = start).
  { unfold clamp, len.
    repeat match goal with |- context [(?a <? ?b)%Z] => destruct (Z.ltb_spec a b) end;
      lia. }
  assert (Hhi : (Z.of_nat p < clamp (start + size) (len text))%Z).
  { unfold clamp, len.
    repeat match goal with |- context [(?a <? ?b)%Z] => destruct (Z.ltb_spec a b) end;
      lia. }
  unfold slice. rewrite Hlo.
  destruct (Z.ltb_spec start (clamp (start + size) (len text))); [|lia].
  rewrite String.substring_correct1 by lia. f_equal. lia.
Qed.

(** The window of index [p / step] holds the character at position [p]. *)
Lemma window_of_position (text : string) (chunk_size overlap : Z) (p : nat) :
  (0 < overlap < chunk_size)%Z ->
  p < String.length text ->
  let step := Z.to_nat (chunk_size - overlap) in
  exists w : string,
    windows text chunk_size overlap !! (p / step) = Some w
    /\ String.get (p mod step) w = String.get p text.
Proof.
  intros Hparams Hp step.
  assert (Hstep : 0 < step) by (unfold step; lia).
  pose proof (Nat.div_mod_eq p step) as Hdm.
  pose proof (Nat.mod_upper_bound p step ltac:(lia)) as Hmod.
  set (k := p / step) in *. set (m := p mod step) in *.
  destruct (window_count (len text) (chunk_size - overlap)) as (Hm & Hend & Hbelow);
    [unfold len; lia|lia|].
  unfold windows. rewrite list_lookup_fmap.
  assert (Hk : k < Z.to_nat ((len text + (chunk_size - overlap) - 1)
                             / (chunk_size - overlap))).
  { apply Nat.lt_nge. intros Hle.
    assert (len text <= Z.of_nat k * (chunk_size - overlap))%Z by nia.
    unfold len in *. unfold step in *. nia. }
  rewrite lookup_seq_lt by exact Hk. cbn [fmap option_fmap option_map Nat.add].
  eexists. split; [reflexivity|].
  rewrite <- (slice_get text (Z.of_nat k * (chunk_size - overlap)) chunk_size p).
  - f_equal. unfold step in *. nia.
  - lia.
  - unfold step in *. nia.
  - exact Hp.
Qed.

(** X12: for [0 < overlap < chunk_size] the windows leave no gap: every
    character of the text lies in the window that starts at the largest
    multiple of [chunk_size - overlap] not beyond it, at the distance from
    that start. *)
Theorem windows_cover_text (text : string) (chunk_size overlap : Z) (p : nat) :
  (0 < overlap < chunk_size)%Z ->
  p < String.length text ->
  let step := Z.to_nat (chunk_size - overlap) in
  exists w : string,
    windows text chunk_size overlap !! (p / step) = Some w
    /\ String.get (p mod step) w = String.get p text.
Proof.
  intros Hparams Hp. by apply window_of_position.
Qed.

End ChunkingEdges.

(** An overlap equal to the chunk size. *)
Lemma chunk_text_diverges_on_large_overlap_witness :
  (30 <= 30)%Z
  /\ forall fuel : nat, ingest.chunk_text fuel "abc" 30 30 = None.
Proof.
  assert (H : (30 <= 30)%Z) by lia.
  split; [exact H|].
  apply (proj1 (chunk_text_diverges_on_large_overlap "abc" 30 30 H)).
  discriminate.
Defined.

(** The sixth character of a short text, with the default parameters. *)
Lemma windows_cover_text_witness :
  exists w : string,
    ingest.windows "Check-in is from 3pm." ingest.CHUNK_SIZE ingest.CHUNK_OVERLAP
    !! (5 / Z.to_nat (ingest.CHUNK_SIZE - ingest.CHUNK_OVERLAP)) = Some w
    /\ String.get (5 mod Z.to_nat (ingest.CHUNK_SIZE - ingest.CHUNK_OVERLAP)) w
       = String.get 5 "Check-in is from 3pm.".
Proof.
  apply (windows_cover_text "Check-in is from 3pm."
           ingest.CHUNK_SIZE ingest.CHUNK_OVERLAP 5).
  - unfold ingest.CHUNK_SIZE, ingest.CHUNK_OVERLAP. lia.
  - cbn. lia.
Defined.

(** ** Chunking: blank texts *)

Section BlankTexts.
Import Py ingest.

Lemma only_whitespace_app (a b : string) :
  only_whitespace (a +:+ b) = only_whitespace a && only_whitespace b.
Proof.
  induction a as [|c a IH]; [done|]. simpl. by rewrite IH, andb_assoc.
Qed.

Lemma lstrip_empty (s : string) : lstrip s = "" <-> only_whitespace s = true.
Proof.
  induction s as [|c s IH]; [done|].
  cbn [lstrip only_whitespace]. destruct (isspace c); [exact IH|]. split; discriminate.
Qed.

Lemma rstrip_empty (s : string) : rstrip s = "" <-> only_whitespace s = true.
Proof.
  induction s as [|c s IH]; [done|].
  cbn [rstrip only_whitespace]. destruct (rstrip s) as [|a r].
  - rewrite (proj1 IH eq_refl), andb_true_r.
    destruct (isspace c); split; intros H; done.
  - assert (only_whitespace s = false) as ->.
    { destruct (only_whitespace s); [|done]. discriminate (proj2 IH eq_refl). }
    rewrite andb_false_r. split; discriminate.
Qed.

Lemma strip_empty (s : string) : strip s = "" <-> only_whitespace s = true.
Proof.
  unfold strip. split.
  - intros H. apply lstrip_empty, rstrip_empty in H.
    rewrite rstrip_idempotent in H. by apply rstrip_empty.
  - intros H. apply rstrip_empty in H. by rewrite H.
Qed.

Lemma only_whitespace_get (s : string) (i : nat) (c : ascii) :
  only_whitespace s = true -> String.get i s = Some c -> isspace c = true.
Proof.
  revert i. induction s as [|a s IH]; intros i Hs Hi; [done|].
  cbn [only_whitespace] in Hs. apply andb_true_iff in Hs as [Ha Hs].
  destruct i as [|i]; cbn [String.get] in Hi; [by injection Hi as <-|].
  by eapply IH.
Qed.

Lemma not_only_whitespace_get (s : string) :
  only_whitespace s = false ->
  exists (i : nat) (c : ascii),
    i < String.length s /\ String.get i s = Some c /\ isspace c = false.
Proof.
  induction s as [|a s IH]; [done|]. cbn [only_whitespace].
  destruct (isspace a) eqn:Ha.
  - cbn [andb]. intros Hs. destruct (IH Hs) as (i & c & Hi & Hg & Hc).
    exists (S i), c. cbn [String.length String.get]. split; [lia|done].
  - intros _. exists 0, a. cbn [String.length]. split; [lia|done].
Qed.

Lemma chunk_text_result (text : string) (chunk_size overlap : Z) :
  (0 < overlap < chunk_size)%Z ->
  exists fuel : nat,
    chunk_text fuel text chunk_size overlap
    = Some (stripped (windows text chunk_size overlap)).
Proof.
  intros Hparams.
  destruct (window_count (len text) (chunk_size - overlap)) as (Hm & Hend & Hbelow);
    [unfold len; lia|lia|].
  set (m := Z.to_nat ((len text + (chunk_size - overlap) - 1) / (chunk_size - overlap))).
  exists (S m). unfold chunk_text, windows. fold m.
  pose proof (chunk_loop_windows text chunk_size overlap m 0 (S m) []) as Hloop.
  cbv zeta in Hloop. rewrite Z.mul_0_l in Hloop.
  rewrite Hloop; [done|lia| | |lia].
  - intros k Hk. apply Hbelow. unfold m in Hk. lia.
  - unfold m. cbn [Nat.add]. rewrite Z2Nat.id by done. exact Hend.
Qed.

(** X13: for [0 < overlap < chunk_size], [chunk_text] returns no chunk
    exactly when the text is blank, that is when [text.strip()] is empty:
    a text with one visible character always yields a chunk. *)
Theorem chunk_text_empty_iff_blank (text : string) (chunk_size overlap : Z) :
  (0 < overlap < chunk_size)%Z ->
  exists (fuel : nat) (chunks : list string),
    chunk_text fuel text chunk_size overlap = Some chunks
    /\ (chunks = [] <-> strip text = "").
Proof.
  intros Hparams. destruct (chunk_text_result text chunk_size overlap Hparams)
    as [fuel Hrun].
  exists fuel, (stripped (windows text chunk_size overlap)). split; [exact Hrun|].
  rewrite strip_empty. split.
  - intros Hnone. destruct (only_whitespace text) eqn:Hws; [done|]. exfalso.
    destruct (not_only_whitespace_get text Hws) as (p & c & Hp & Hg & Hc).
    destruct (window_of_position text chunk_size overlap p Hparams Hp)
      as (w & Hw & Hget). cbv zeta in Hw, Hget. rewrite Hg in Hget.
    assert (Hww : only_whitespace w = false).
    { destruct (only_whitespace w) eqn:Hww; [|done].
      by rewrite (only_whitespace_get _ _ _ Hww Hget) in Hc. }
    assert (Hin : strip w ∈ stripped (windows text chunk_size overlap)).
    { apply list_elem_of_omap. exists w. split; [by eapply list_elem_of_lookup_2|].
      destruct (strip w) eqn:Hs; [|done].
      apply strip_empty in Hs. congruence. }
    rewrite Hnone in Hin. by apply elem_of_nil in Hin.
  - intros Hws. unfold stripped.
    apply elem_of_nil_inv. intros c Hc.
    apply list_elem_of_omap in Hc as (w & Hw & Hs).
    apply list_elem_of_fmap in Hw as (k & -> & _).
    match type of Hs with
    | context [slice ?t ?a ?b] =>
        destruct (slice_is_substring t a b) as (pre & post & Htext);
        set (w := slice t a b) in *
    end.
    assert (Hww : only_whitespace w = true).
    { rewrite Htext, !only_whitespace_app in Hws.
      by apply andb_true_iff in Hws as [_ [? _]%andb_true_iff]. }
    apply strip_empty in Hww. by rewrite Hww in Hs.
Qed.

End BlankTexts.

(** A text of spaces and newlines, with the default parameters. *)
Lemma chunk_text_empty_iff_blank_witness :
  exists (fuel : nat) (chunks : list string),
    ingest.chunk_text fuel "    " ingest.CHUNK_SIZE ingest.CHUNK_OVERLAP = Some chunks
    /\ (chunks = [] <-> Py.strip "    " = "").
Proof.
  apply chunk_text_empty_iff_blank.
  unfold ingest.CHUNK_SIZE, ingest.CHUNK_OVERLAP. lia.
Defined.

(** ** Start-up: the environment *)

Section Environment.
Import environ.

(** X14: [validate] succeeds exactly when each of the five variables is set
    to a non-empty value; otherwise it raises, and the message names the
    variables that are unset or empty, all of them and no other, in the
    order of the table. *)
Theorem validate_names_what_is_missing (e : env) :
  (forall name : string,
      name ∈ missing e <-> exists v, (name, v) ∈ required e /\ unset v)
  /\ missing e `sublist_of` (required e).*1
  /\ (validate e = Ok () <-> Forall (fun kv => ¬ unset kv.2) (required e))
  /\ (validate e ≠ Ok () ->
      validate e
      = Raise (Py.Error ("Missing required environment variables: "
                         +:+ Py.join ", " (missing e)))).
Proof.
  split; [|split; [|split]].
  - intros name. unfold missing. rewrite list_elem_of_fmap. split.
    + intros ([k v] & -> & Hin). apply list_elem_of_filter in Hin as [Hu Hin].
      by exists v.
    + intros (v & Hin & Hu). exists (name, v). split; [done|].
      by apply list_elem_of_filter.
  - unfold missing. apply fmap_sublist, sublist_filter.
  - unfold validate, missing. split.
    + intros Hok. destruct (filter _ (required e)) as [|kv l] eqn:Hf; [|done].
      apply Forall_forall. intros kv Hin Hu.
      assert (kv ∈ filter (fun kv => unset kv.2) (required e)) as Hin'
        by (by apply list_elem_of_filter).
      rewrite Hf in Hin'. by apply elem_of_nil in Hin'.
    + intros Hall. rewrite filter_none; [done|]. exact Hall.
  - unfold validate. by destruct (missing e).
Qed.

End Environment.

(** ** Ingestion: the batches of [upsert_chunks] *)

Section Batches.
Import store.

Lemma concat_batches_from {R} (rows : list R) (j m : nat) :
  concat ((fun k => take batch_size (drop (k * batch_size) rows)) <$> seq j m)
  = take (m * batch_size) (drop (j * batch_size) rows).
Proof.
  revert j. induction m as [|m IH]; intros j; [done|].
  cbn [seq fmap list_fmap concat]. fold (list_fmap nat (list R)). rewrite IH.
  replace (drop (S j * batch_size) rows)
    with (drop batch_size (drop (j * batch_size) rows))
    by (rewrite drop_drop; f_equal; lia).
  rewrite take_take_drop. f_equal; lia.
Qed.

Lemma batch_count (n : nat) :
  let m := (n + batch_size - 1) / batch_size in
  n <= m * batch_size /\ forall k, k < m -> k * batch_size < n.
Proof.
  unfold batch_size. cbv zeta.
  pose proof (Nat.div_mod_eq (n + 100 - 1) 100) as Hdm.
  pose proof (Nat.mod_upper_bound (n + 100 - 1) 100 ltac:(lia)) as Hmod.
  split; [lia|]. intros k Hk. nia.
Qed.

Lemma insert_all_prefix {X R} (insert : list R -> X -> outcome () * X)
  (bs : list (list R)) (s : logged X (list R)) :
  exists (r : outcome ()) (s' : logged X (list R)) (attempted : list (list R)),
    insert_all insert bs s = (r, s')
    /\ calls s' = calls s ++ attempted
    /\ attempted `prefix_of` bs
    /\ (r = Ok () -> attempted = bs)
    /\ (forall e, r = Raise e -> attempted ≠ []).
Proof.
  revert s. induction bs as [|b bs IH]; intros s.
  - exists (Ok ()), s, []. rewrite app_nil_r. by repeat split.
  - cbn [insert_all]. unfold bind at 1, perform.
    destruct (insert b (outside s)) as [[[]|e] x'] eqn:Hb.
    + match goal with
      | |- context [insert_all insert bs ?s1] =>
          destruct (IH s1) as (r & s' & att & Hrun & Hc & Hp & Hok & Hraise)
      end.
      exists r, s', (b :: att). cbn [calls] in Hc.
      split; [done|]. split; [by rewrite Hc, <- app_assoc|].
      split; [by apply prefix_cons|]. split; [intros Hr; by rewrite Hok|done].
    + exists (Raise e), (Logged x' (calls s ++ [b])), [b].
      split; [done|]. split; [done|].
      split; [by apply prefix_cons, prefix_nil|]. split; done.
Qed.


End Batches.

(** ** The message handler *)

Section Handler.
Import handlers.
Context {W : Type}.
Context (messages_create : string -> list message -> W -> outcome response * W).
Context (caps : Capabilities W).
Context (base_prompt : string).
Context (db_request : W -> outcome () * W).
Context (clock : W -> Z).
Context (reply_text : string -> W -> outcome () * W).
Context (rpc_trim : Z -> list context.row -> list context.row).

#[local] Abbreviation St := (bot W).
#[local] Abbreviation pipeline :=
  (handlers.pipeline messages_create caps base_prompt db_request clock reply_text rpc_trim).
#[local] Abbreviation handle_message :=
  (handlers.handle_message messages_create caps base_prompt db_request clock
     reply_text rpc_trim).

Lemma grows_refl (s : St) : grows s s.
Proof. by repeat split. Qed.

Lemma grows_trans (s1 s2 s3 : St) : grows s1 s2 -> grows s2 s3 -> grows s1 s3.
Proof.
  intros (Hs1 & Hl1 & Hu1) (Hs2 & Hl2 & Hu2). repeat split.
  - congruence.
  - by etrans.
  - by etrans.
Qed.

Lemma silent_ret {A} (a : A) : silent (ret a : M St A).
Proof. intros s r s' H. injection H as <- <-. apply grows_refl. Qed.

Lemma silent_bind {A B} (c : M St A) (k : A -> M St B) :
  silent c -> (forall a, silent (k a)) -> silent (bind c k).
Proof.
  intros Hc Hk s r s' Hrun. unfold bind in Hrun.
  destruct (c s) as [[a|e] s1] eqn:Hcs.
  - eapply grows_trans; [by eapply Hc|by eapply Hk].
  - injection Hrun as <- <-. by eapply Hc.
Qed.

Lemma silent_request {A} (value : St -> A) (effect : St -> St) :
  (forall s, grows s (effect s)) -> silent (request db_request value effect).
Proof.
  intros Heff s r s' Hrun. unfold request in Hrun.
  destruct (db_request (world s)) as [[[]|e] w']; injection Hrun as <- <-.
  - destruct (Heff s) as (? & ? & ?). by repeat split.
  - by repeat split.
Qed.

Lemma silent_ensure_user_exists (uid cid : Z) (f l c : string) :
  silent (ensure_user_exists db_request clock uid cid f l c).
Proof.
  apply silent_bind; [apply silent_request; intros; apply grows_refl|].
  intros [|? ?]; [|apply silent_ret].
  apply silent_request. intros s. repeat split; try done. by apply prefix_app_r.
Qed.

Lemma silent_log_message (uid cid : Z) (r t : string) (m d : option Z) :
  silent (log_message db_request clock uid cid r t m d).
Proof.
  apply silent_request. intros s. repeat split; try done.
  by apply prefix_app_r.
Qed.

Lemma silent_save_to_context (uid cid : Z) (r t : string) (m d : option Z) :
  silent (save_to_context db_request clock uid cid r t m d).
Proof. apply silent_request. intros s. by repeat split. Qed.

Lemma silent_trim_context (uid : Z) : silent (trim_context db_request rpc_trim uid).
Proof. apply silent_request. intros s. by repeat split. Qed.

Lemma silent_load_context (uid : Z) : silent (load_context db_request uid).
Proof. apply silent_request. intros s. apply grows_refl. Qed.

Lemma silent_run_agent (um rc : string) :
  silent (run_agent messages_create caps base_prompt um rc).
Proof.
  intros s r s' Hrun. unfold run_agent in Hrun.
  destruct (runner.run_agent _ _ _ _ _ _) as [r0 a']. injection Hrun as <- <-.
  by repeat split.
Qed.

Lemma replies_reply (answer : string) :
  replies_at_the_end (reply reply_text answer).
Proof.
  intros s r s' Hrun. unfold reply in Hrun.
  destruct (reply_text answer (world s)) as [[[]|e] w']; injection Hrun as <- <-.
  - repeat split; try done. by exists answer.
  - by repeat split.
Qed.

Lemma replies_bind {A B} (c : M St A) (k : A -> M St B) :
  silent c -> (forall a, replies_at_the_end (k a)) -> replies_at_the_end (bind c k).
Proof.
  intros Hc Hk s r s' Hrun. unfold bind in Hrun.
  destruct (c s) as [[a|e] s1] eqn:Hcs.
  - destruct (Hc _ _ _ Hcs) as (Hs & Hl & Hu).
    destruct (Hk a _ _ _ Hrun) as (Hl' & Hu' & Hr).
    split; [by etrans|]. split; [by etrans|].
    destruct r; by rewrite <- Hs.
  - injection Hrun as <- <-. destruct (Hc _ _ _ Hcs) as (Hs & Hl & Hu). by repeat split.
Qed.

Lemma replies_pipeline (u : update) (t : string) : replies_at_the_end (pipeline u t).
Proof.
  unfold handlers.pipeline.
  apply replies_bind; [apply silent_ensure_user_exists|intros _].
  apply replies_bind; [apply silent_log_message|intros _].
  apply replies_bind; [apply silent_save_to_context|intros _].
  apply replies_bind; [apply silent_trim_context|intros _].
  apply replies_bind; [apply silent_load_context|intros context_messages].
  apply replies_bind; [apply silent_run_agent|intros answer].
  apply replies_bind; [apply silent_log_message|intros _].
  apply replies_bind; [apply silent_save_to_context|intros _].
  apply replies_bind; [apply silent_trim_context|intros _].
  apply replies_reply.
Qed.

(** X16: [handle_message] does nothing at all for an update without text.
    For an update with text it delivers exactly one reply when it returns:
    the answer of a pipeline in which every step succeeded, and otherwise
    the fixed apology; it never delivers both.  It raises only when the
    delivery of the apology itself fails, and then nothing was delivered.
    Whatever happens, rows already in the permanent log and in the table of
    users are never removed or changed. *)
Theorem handle_message_replies_once (u : update) (s : St) :
  exists (r : outcome ()) (s' : St),
    handle_message u s = (r, s')
    /\ chat_logs s `prefix_of` chat_logs s'
    /\ users_table s `prefix_of` users_table s'
    /\ (text u = None \/ text u = Some "" -> r = Ok () /\ s' = s)
    /\ (forall t : string,
          text u = Some t -> t ≠ "" ->
          match r with
          | Ok _ =>
              exists answer : string,
                sent s' = sent s ++ [answer]
                /\ (pipeline u t s = (Ok (), s')
                    \/ answer = APOLOGY /\ exists e s1, pipeline u t s = (Raise e, s1))
          | Raise e =>
              sent s' = sent s
              /\ exists (e0 : Py.exn) (s1 : St) (w' : W),
                   pipeline u t s = (Raise e0, s1)
                   /\ reply_text APOLOGY (world s1) = (Raise e, w')
          end).
Proof.
  unfold handlers.handle_message.
  destruct (text u) as [[|c t]|] eqn:Htext.
  1,3: exists (Ok ()), s; repeat split; try done; intros ? [=] ?; done.
  cbn [Py.truthy]. unfold try_except.
  destruct (pipeline u (String c t) s) as [[[]|e0] s1] eqn:Hp.
  - destruct (replies_pipeline _ _ _ _ _ Hp) as (Hl & Hu & [answer Hs]).
    exists (Ok ()), s1. split; [done|]. split; [done|]. split; [done|].
    split; [intros [?|?]; done|].
    intros t' [= <-] _. exists answer. split; [done|by left].
  - destruct (replies_pipeline _ _ _ _ _ Hp) as (Hl & Hu & Hs).
    destruct (reply reply_text APOLOGY s1) as [r s2] eqn:Hr.
    destruct (replies_reply _ _ _ _ Hr) as (Hl2 & Hu2 & Hs2).
    exists r, s2. split; [done|]. split; [by etrans|]. split; [by etrans|].
    split; [intros [?|?]; done|].
    intros t' [= <-] _. unfold reply in Hr.
    destruct (reply_text APOLOGY (world s1)) as [[[]|e] w'] eqn:Hrt;
      injection Hr as <- <-.
    + exists APOLOGY. cbn [sent]. rewrite Hs. split; [done|]. right. split; [done|].
      by exists e0, s1.
    + split; [cbn [sent with_world]; congruence|]. by exists e0, s1, w'.
Qed.

Lemma filter_user_nil (uid : Z) (t : list users.user) :
  filter (fun r => users.user_id r = uid) t = [] <-> uid ∉ users.user_id <$> t.
Proof.
  split.
  - intros Hf Hin. apply list_elem_of_fmap in Hin as (r & -> & Hin).
    by eapply (filter_nil_not_elem_of _ _ r Hf).
  - intros Hnot. apply filter_none, Forall_forall. intros r Hin Hr.
    apply Hnot, list_elem_of_fmap. by exists r.
Qed.

(** X17: [ensure_user_exists] adds a user only when no row has that
    identifier, and then exactly one row, at the end, with that identifier
    and with "en" as language when none is given; a user who is already
    there is left as stored, also when the name or language in the update
    differ.  Identifiers that were distinct stay distinct, and no other
    table is touched. *)
Theorem ensure_user_exists_adds_once (uid cid : Z) (first last lang : string) (s : St) :
  exists (r : outcome bool) (s' : St),
    ensure_user_exists db_request clock uid cid first last lang s = (r, s')
    /\ chat_logs s' = chat_logs s
    /\ minimal_context s' = minimal_context s
    /\ sent s' = sent s
    /\ (NoDup (users.user_id <$> users_table s) ->
        NoDup (users.user_id <$> users_table s'))
    /\ (r ≠ Ok true -> users_table s' = users_table s)
    /\ (r = Ok false -> uid ∈ users.user_id <$> users_table s)
    /\ (r = Ok true ->
        (uid ∉ users.user_id <$> users_table s)
        /\ exists new : users.user,
             users_table s' = users_table s ++ [new]
             /\ users.user_id new = uid
             /\ users.first_name new = first
             /\ users.language_code new = (if Py.truthy lang then lang else "en")).
Proof.
  unfold ensure_user_exists, bind, request, ret.
  destruct (db_request (world s)) as [[[]|e] w1].
  2:{ eexists _, _. split; [reflexivity|]. by repeat split. }
  destruct (filter _ (users_table s)) as [|x l] eqn:Hf.
  - cbn [world with_world agent outside].
    destruct (db_request w1) as [[[]|e] w2].
    + eexists _, _. split; [reflexivity|]. cbn.
      apply filter_user_nil in Hf.
      split; [done|]. split; [done|]. split; [done|].
      split.
      { intros Hnd. rewrite fmap_app. apply NoDup_app. split; [done|].
        split; [|apply NoDup_singleton].
        intros x Hx Hin. apply list_elem_of_singleton in Hin. by subst. }
      split; [done|]. split; [done|]. intros _. split; [done|].
      eexists. by repeat split.
    + eexists _, _. split; [reflexivity|]. by repeat split.
  - eexists _, _. split; [reflexivity|]. cbn.
    split; [done|]. split; [done|]. split; [done|]. split; [done|].
    split; [done|]. split; [|done]. intros _.
    assert (Hx : x ∈ filter (fun r => users.user_id r = uid) (users_table s))
      by (rewrite Hf; apply list_elem_of_here).
    apply list_elem_of_filter in Hx as [Hid Hx].
    apply list_elem_of_fmap. by exists x.
Qed.

(** X18: when every step of the pipeline succeeds, the reply delivered is
    the answer of [run_agent]; the permanent log gains exactly two rows,
    the user's text and then that answer; and the recent conversation
    given to the agent is formatted from the window as loaded after the
    user's message was saved and the window trimmed, so that the agent
    reads the new message there as well. *)
Theorem pipeline_success (u : update) (t : string) (s s' : St) :
  pipeline u t s = (Ok (), s') ->
  exists (answer : string) (now1 now2 now3 now4 : Z) (a0 a1 : logged W event),
    let window :=
      rpc_trim (user_id u)
        (context.save_to_context now2 (user_id u) (chat_id u) "user" t
           (Some (message_id u)) (Some (update_id u)) (minimal_context s)) in
    runner.run_agent messages_create caps base_prompt t
      (context.format_context_for_prompt (context.load_context (user_id u) window)) a0
    = (Ok answer, a1)
    /\ calls a0 = calls (agent s)
    /\ sent s' = sent s ++ [answer]
    /\ chat_logs s'
       = context.save_to_context now3 (user_id u) (chat_id u) "assistant" answer
           None (Some (update_id u))
           (context.save_to_context now1 (user_id u) (chat_id u) "user" t
              (Some (message_id u)) (Some (update_id u)) (chat_logs s))
    /\ minimal_context s'
       = rpc_trim (user_id u)
           (context.save_to_context now4 (user_id u) (chat_id u) "assistant" answer
              None (Some (update_id u)) window).
Proof.
  unfold handlers.pipeline, ensure_user_exists, log_message, save_to_context,
    trim_context, load_context, run_agent, reply, bind, request, ret.
  intros Hrun.
  repeat match type of Hrun with
         | context [db_request ?w] =>
             destruct (db_request w) as [[[]|?] ?]; [|discriminate Hrun]
         | context [filter ?P ?l] => destruct (filter P l)
         end;
    cbn [world with_world agent outside calls users_table chat_logs
         minimal_context sent] in Hrun.
  all: match type of Hrun with
       | context [runner.run_agent ?m ?c ?b ?t ?r ?a] =>
           destruct (runner.run_agent m c b t r a) as [[answer|?] a1] eqn:Hagent;
             [|discriminate Hrun]
       end.
  all: cbn [world with_world agent outside calls users_table chat_logs
            minimal_context sent] in Hrun.
  all: repeat match type of Hrun with
         | context [db_request ?w] =>
             destruct (db_request w) as [[[]|?] ?]; [|discriminate Hrun]
         end;
    cbn [world with_world agent outside calls users_table chat_logs
         minimal_context sent] in Hrun.
  all: match type of Hrun with
       | context [reply_text ?a ?w] =>
           destruct (reply_text a w) as [[[]|?] ?]; [|discriminate Hrun]
       end.
  all: injection Hrun as <-.
  all: eexists answer, _, _, _, _, _, a1; cbv zeta.
  all: split; [exact Hagent|]; by repeat split.
Qed.

End Handler.

Example hi_pipeline_runs :
  let '(r, s') := hi_pipeline fresh_bot in
  r = Ok ()
  /\ handlers.sent s' = ["Hello there"]
  /\ (fun r => (context.role r, context.text r)) <$> handlers.chat_logs s'
     = [("user", "hi"); ("assistant", "Hello there")]
  /\ users.language_code <$> handlers.users_table s' = ["en"].
Proof. vm_compute. by repeat split. Qed.

(** The pipeline of a first "hi", with nothing failing. *)
Lemma pipeline_success_witness :
  exists (answer : string) (now1 now2 now3 now4 : Z)
         (a0 a1 : logged (logged () call) event),
    let window :=
      context.trim_context config.CONTEXT_MESSAGE_LIMIT 7
        (context.save_to_context now2 7 7 "user" "hi" (Some 1%Z) (Some 1%Z) []) in
    runner.run_agent model_hello stub_caps "Be kind." "hi"
      (context.format_context_for_prompt (context.load_context 7 window)) a0
    = (Ok answer, a1)
    /\ calls a0 = []
    /\ handlers.sent (hi_pipeline fresh_bot).2 = [] ++ [answer]
    /\ handlers.chat_logs (hi_pipeline fresh_bot).2
       = context.save_to_context now3 7 7 "assistant" answer None (Some 1%Z)
           (context.save_to_context now1 7 7 "user" "hi" (Some 1%Z) (Some 1%Z) [])
    /\ handlers.minimal_context (hi_pipeline fresh_bot).2
       = context.trim_context config.CONTEXT_MESSAGE_LIMIT 7
           (context.save_to_context now4 7 7 "assistant" answer None (Some 1%Z) window).
Proof.
  exact (pipeline_success model_hello stub_caps "Be kind." always_ok clock_noon
           deliver (context.trim_context config.CONTEXT_MESSAGE_LIMIT)
           hi_update "hi" fresh_bot (hi_pipeline fresh_bot).2 eq_refl).
Defined.

(** ** The dispatcher and the schemas *)

Section SchemaAndDispatcher.
Import tools.

(** X19: a call to a registered tool that carries every field its schema
    requires always reaches the backing capability, exactly once, with the
    values of the fields in the order of the capability's parameters (the
    empty string for an optional field that is absent): the schema's
    required lists cover every field the dispatcher subscripts. *)
Theorem schema_valid_call_reaches_capability {W} (caps : Capabilities W)
  (tool_name : string) (tool_input : gmap string Py.value) (s : logged W event) :
  tool_name ∈ REGISTERED ->
  (forall key, key ∈ required tool_name -> is_Some (tool_input !! key)) ->
  first_missing (subscripted tool_name) tool_input = None
  /\ calls (execute_tool caps tool_name tool_input s).2
     = calls s
       ++ [ ETool tool_name tool_input;
            ECapability tool_name
              ((fun key => default (Py.PStr "") (tool_input !! key))
               <$> reads tool_name) ].
Proof.
  intros Hreg Hreq. unfold REGISTERED in Hreg.
  repeat (apply elem_of_cons in Hreg as [->|Hreg]); [..|by apply elem_of_nil in Hreg].
  all: unfold required in Hreq; cbn [String.eqb Ascii.eqb Bool.eqb] in Hreq.
  all: unfold reads, subscripted, execute_tool, dispatch, getitem, get;
    cbn [String.eqb Ascii.eqb Bool.eqb app fmap list_fmap first_missing].
  all: repeat match goal with
         | Hr : forall key, _ -> is_Some (?m !! key) |- context [?m !! ?k] =>
             let H := fresh "H" in
             let v := fresh "v" in
             first [ destruct (Hr k ltac:(set_solver)) as [v H]; rewrite !H
                   | destruct (m !! k) as [v|] eqn:H ]
         end.
  all: destruct s as [w0 c0]; eff; cbv beta iota delta [outside calls].
  all: repeat case_match; cbn [fst snd] in *; simplify_eq; unfold id.
  all: split; first done.
  all: by rewrite <- app_assoc.
Qed.

Lemma search_never_raises {X} (svc : Services X) (q : Py.value) (n : Z)
  (s : logged X call) :
  exists out s', rag.search_knowledge_base svc q n s = (Ok out, s').
Proof.
  unfold rag.search_knowledge_base. eff.
  repeat case_match; simplify_eq; by eexists _, _.
Qed.

(** The lookup of the calendar is all that can make a calendar operation
    raise. *)
Lemma resolve_hashable (p : Py.value) :
  match cal._resolve_calendar p with
  | Ok _ => Py.hashable p = true
  | Raise e =>
      Py.hashable p = false
      /\ e = Py.Error ("unhashable type: '" +:+ Py.type_name p +:+ "'")
  end.
Proof. by destruct p. Qed.

Lemma check_availability_raises {X} (svc : Services X) (p i o : Py.value)
  (s : logged X call) :
  match cal.check_availability svc p i o s with
  | (Ok _, _) => Py.hashable p = true
  | (Raise e, s') =>
      Py.hashable p = false
      /\ e = Py.Error ("unhashable type: '" +:+ Py.type_name p +:+ "'")
      /\ s' = s
  end.
Proof.
  unfold cal.check_availability, cal._get_service, bind at 1, lift.
  pose proof (resolve_hashable p) as Hp.
  destruct (cal._resolve_calendar p) as [c|e]; [|by destruct Hp].
  destruct (cal.resolved c); [|done]. eff.
  by repeat case_match.
Qed.

Lemma create_booking_raises {X} (svc : Services X) (p i o g e ph : Py.value)
  (s : logged X call) :
  match cal.create_booking svc p i o g e ph s with
  | (Ok _, _) => Py.hashable p = true
  | (Raise err, s') =>
      Py.hashable p = false
      /\ err = Py.Error ("unhashable type: '" +:+ Py.type_name p +:+ "'")
      /\ s' = s
  end.
Proof.
  unfold cal.create_booking, cal._get_service, bind at 1, lift.
  pose proof (resolve_hashable p) as Hp.
  destruct (cal._resolve_calendar p) as [c|err]; [|by destruct Hp].
  destruct (cal.resolved c); [|done]. eff.
  by repeat case_match.
Qed.

Lemma cancel_booking_raises {X} (svc : Services X) (p g i : Py.value)
  (s : logged X call) :
  match cal.cancel_booking svc p g i s with
  | (Ok _, _) => Py.hashable p = true
  | (Raise e, s') =>
      Py.hashable p = false
      /\ e = Py.Error ("unhashable type: '" +:+ Py.type_name p +:+ "'")
      /\ s' = s
  end.
Proof.
  unfold cal.cancel_booking, cal._get_service, bind at 1, lift.
  pose proof (resolve_hashable p) as Hp.
  destruct (cal._resolve_calendar p) as [c|e]; [|by destruct Hp].
  destruct (cal.resolved c); [|done]. eff.
  by repeat case_match.
Qed.

(** X20: with the capabilities of this repository, which catch the
    failures of their services, the [try] block of [execute_tool] sees two
    exceptions only: the [KeyError] of the first subscripted field that is
    missing, raised before any capability is called; and, when no field is
    missing, the [TypeError] of a calendar operation whose property name
    is a list or an object and cannot be looked up in [CALENDAR_MAP], in
    which case no service was called.  With all subscripted fields present
    and a property name that can be hashed -- a string in particular --
    the block returns. *)
Theorem dispatch_raises_only_for_bad_arguments {X} (svc : Services X)
  (tool_name : string) (tool_input : gmap string Py.value)
  (s : logged (logged X call) event) :
  match dispatch (repository svc) tool_name tool_input s with
  | (Raise e, s') =>
      (exists key : string,
          first_missing (subscripted tool_name) tool_input = Some key
          /\ e = Py.KeyError key
          /\ s' = s)
      \/ (exists p : Py.value,
            first_missing (subscripted tool_name) tool_input = None
            /\ tool_name ∈ ["check_availability"; "create_booking"; "cancel_booking"]
            /\ tool_input !! "property_name" = Some p
            /\ Py.hashable p = false
            /\ e = Py.Error ("unhashable type: '" +:+ Py.type_name p +:+ "'")
            /\ outside s' = outside s)
  | (Ok _, _) =>
      first_missing (subscripted tool_name) tool_input = None
      /\ (tool_name ∈ ["check_availability"; "create_booking"; "cancel_booking"] ->
          exists p : Py.value,
            tool_input !! "property_name" = Some p /\ Py.hashable p = true)
  end.
Proof.
  unfold dispatch, subscripted, getitem.
  repeat match goal with
         | |- context [String.eqb ?n ?x] =>
             is_var n; destruct (String.eqb_spec n x) as [->|?]
         end.
  all: cbn [first_missing].
  all: repeat match goal with
         | |- context [?m !! ?k] => destruct (m !! k)
         end.
  all: destruct s as [w0 c0]; eff.
  all: try (left; by eexists).
  all: cbn [repository cap_search_knowledge_base cap_check_availability
            cap_create_booking cap_cancel_booking];
    unfold lift_str, lift_dict; eff.
  all: try match goal with
         | |- context [rag.search_knowledge_base ?c ?q ?n ?x] =>
             destruct (search_never_raises c q n x) as (? & ? & ->)
         end.
  all: try match goal with
         | |- context [cal.check_availability ?c ?p ?i ?o ?x] =>
             pose proof (check_availability_raises c p i o x) as Hc;
             destruct (cal.check_availability c p i o x) as [[?|?] ?]
         | |- context [cal.create_booking ?c ?p ?i ?o ?g ?e ?h ?x] =>
             pose proof (create_booking_raises c p i o g e h x) as Hc;
             destruct (cal.create_booking c p i o g e h x) as [[?|?] ?]
         | |- context [cal.cancel_booking ?c ?p ?g ?i ?x] =>
             pose proof (cancel_booking_raises c p g i x) as Hc;
             destruct (cal.cancel_booking c p g i x) as [[?|?] ?]
         end.
  all: try (right; destruct Hc as (? & -> & ->); eexists;
            repeat split; try done; set_solver).
  all: split; [done|]; intros Hin.
  all: try (by eexists).
  all: exfalso; revert Hin; rewrite !elem_of_cons, elem_of_nil;
    intuition (discriminate || congruence).
Qed.

End SchemaAndDispatcher.

(** A complete availability request. *)
Lemma schema_valid_call_reaches_capability_witness :
  calls (tools.execute_tool stub_caps "check_availability" shed_dates start).2
  = [ ETool "check_availability" shed_dates;
      ECapability "check_availability"
        [Py.PStr "The Shed"; Py.PStr "2025-12-04"; Py.PStr "2025-12-07"] ].
Proof.
  refine (proj2 (schema_valid_call_reaches_capability stub_caps
                   "check_availability" shed_dates start _ _)).
  - apply (bool_decide_unpack _). vm_compute. exact I.
  - intros key Hkey. unfold tools.required in Hkey.
    cbn [String.eqb Ascii.eqb Bool.eqb] in Hkey.
    repeat (apply elem_of_cons in Hkey as [->|Hkey]); [..|by apply elem_of_nil in Hkey];
      by eexists.
Defined.
